(** * Kadal: the request/response pipeline of [kadal/client.py]

    A shallow embedding of the AniList client: the values Python decodes
    from JSON, the exceptions the client raises, the [await]ed HTTP exchange
    as an effect, and the methods of [Client]. *)

From Stdlib Require Import ZArith QArith.
From stdpp Require Import gmap strings list fin_maps.

Set Warnings "-register-all,-clear-no-such-hyp".
#[local] Open Scope Z_scope.

(** ** Python values *)

(** A Python [float]: a finite double denotes a rational; [inf], [-inf] and
    [nan] are kept apart ([json.loads] accepts them). Only the comparison
    with an [int] and the truth value are used by the client. *)
Inductive pyfloat : Type :=
| Finite (q : Q)
| Infinite (negative : bool)
| NaN.

(** What [r.json()] yields, and what callers put into [variables]:
    [None], [bool], [int], [float], [str], [list] and [dict] with [str] keys. *)
Inductive json : Type :=
| JNull
| JBool (b : bool)
| JInt (n : Z)
| JFloat (f : pyfloat)
| JStr (s : string)
| JArr (l : list json)
| JObj (m : gmap string json).

(** [bool(v)], the test behind [if v] and [not v]. *)
Definition truthy (v : json) : bool :=
  match v with
  | JNull => false
  | JBool b => b
  | JInt n => negb (n =? 0)%Z
  | JFloat (Finite q) => negb (Qeq_bool q 0%Q)
  | JFloat _ => true
  | JStr s => negb (String.eqb s "")
  | JArr l => match l with [] => false | _ :: _ => true end
  | JObj m => negb (bool_decide (size m = 0%nat))
  end.

(** [v == n] for an [int] literal [n]: numbers compare by value across
    [int], [float] and [bool]; everything else is unequal. *)
Definition eq_int (v : json) (n : Z) : bool :=
  match v with
  | JInt k => (k =? n)%Z
  | JBool b => ((if b then 1 else 0) =? n)%Z
  | JFloat (Finite q) => Qeq_bool q (inject_Z n)
  | _ => false
  end.

(** The value passed as [lib]: a [str], or an object of some other class,
    of which [__init__] only reads [__class__.__name__]. *)
Inductive pyobj : Type :=
| PyStr (s : string)
| PyOther (class_name : string).

(** [o == s] for a [str] literal [s]. *)
Definition eq_str (o : pyobj) (s : string) : bool :=
  match o with
  | PyStr t => String.eqb t s
  | PyOther _ => false
  end.

(** ** Exceptions *)

Inductive exn : Type :=
| KadalError (message status : json)
| MediaNotFound (message status : json)
| ValueError (msg : string)
| ImportError (msg : string)
| KeyError (key : json)
| IndexError
| TypeError
| AttributeError
| RuntimeError
| SessionError (class_name : string).
  (* whatever the session's [post] or the response's [json] raises *)

Inductive pyclass : Type :=
| Exception_cls
| KadalError_cls
| MediaNotFound_cls
| ValueError_cls
| ImportError_cls
| LookupError_cls
| KeyError_cls
| IndexError_cls
| TypeError_cls
| AttributeError_cls
| RuntimeError_cls
| Foreign_cls (class_name : string).

#[global] Instance pyclass_eq_dec : EqDecision pyclass.
Proof. solve_decision. Defined.

Definition class_of (e : exn) : pyclass :=
  match e with
  | KadalError _ _ => KadalError_cls
  | MediaNotFound _ _ => MediaNotFound_cls
  | ValueError _ => ValueError_cls
  | ImportError _ => ImportError_cls
  | KeyError _ => KeyError_cls
  | IndexError => IndexError_cls
  | TypeError => TypeError_cls
  | AttributeError => AttributeError_cls
  | RuntimeError => RuntimeError_cls
  | SessionError c => Foreign_cls c
  end.

(** The base in each [class] statement: [class KadalError(Exception)],
    [class MediaNotFound(KadalError)], and the builtins' own. *)
Definition base (c : pyclass) : option pyclass :=
  match c with
  | Exception_cls => None
  | MediaNotFound_cls => Some KadalError_cls
  | KeyError_cls | IndexError_cls => Some LookupError_cls
  | _ => Some Exception_cls
  end.

Fixpoint ancestors (fuel : nat) (c : pyclass) : list pyclass :=
  match fuel with
  | O => [c]
  | S fuel' => c :: match base c with
                    | Some b => ancestors fuel' b
                    | None => []
                    end
  end.

Definition issubclass (c d : pyclass) : bool :=
  bool_decide (d ∈ ancestors 3 c).

(** [except d:] catches [e]. *)
Definition caught_by (d : pyclass) (e : exn) : bool :=
  issubclass (class_of e) d.

(** [message] and [status] as [KadalError.__init__] stores them. *)
Definition message (e : exn) : option json :=
  match e with
  | KadalError m _ | MediaNotFound m _ => Some m
  | _ => None
  end.

Definition status (e : exn) : option json :=
  match e with
  | KadalError _ s | MediaNotFound _ s => Some s
  | _ => None
  end.

(** ** The awaited exchange as an effect *)

(** The object passed as [loop], or given by [asyncio.get_event_loop()].
    An object is truthy unless its class makes it falsy (by [__bool__] or
    [__len__]); [FalsyLoop] stands for such an object. *)
Inductive Loop : Type :=
| LoopHandle (id : nat)
| FalsyLoop (id : nat).

(** The object behind [self.session]: one of the two default sessions of
    [_make_session], or the object the caller supplied; [FalsySession]
    stands for a supplied object whose truth value is false. *)
Inductive Session : Type :=
| aiohttp_ClientSession (loop : option Loop)
| asks_Session
| SuppliedSession (id : nat)
| FalsySession (id : nat).

(** [bool(x)] of these objects. *)
Definition loop_truth (l : Loop) : bool :=
  match l with
  | LoopHandle _ => true
  | FalsyLoop _ => false
  end.

Definition session_truth (s : Session) : bool :=
  match s with
  | FalsySession _ => false
  | _ => true
  end.

Inductive outcome (A : Type) : Type :=
| Returned (a : A)
| Raised (e : exn).
Arguments Returned {A} a.
Arguments Raised {A} e.

(** The object [session.post] resolves to; [json_method] is its [json()]. *)
Record Response : Type := mkResponse { json_method : outcome json }.

(** A computation of the client: it returns, raises, or awaits
    [session.post(url, json=body)] and goes on with the response. *)
Inductive io (A : Type) : Type :=
| Ret (a : A)
| Raise (e : exn)
| Post (s : Session) (url : string) (body : json) (k : Response → io A).
Arguments Ret {A} a.
Arguments Raise {A} e.
Arguments Post {A} s url body k.

Fixpoint io_bind {A B : Type} (f : A → io B) (m : io A) : io B :=
  match m with
  | Ret a => f a
  | Raise e => Raise e
  | Post s url body k => Post s url body (λ r, io_bind f (k r))
  end.

#[global] Instance io_mret : MRet io := @Ret.
#[global] Instance io_mbind : MBind io := @io_bind.

(** [await session.post(url, json=body)]. *)
Definition post (s : Session) (url : string) (body : json) : io Response :=
  Post s url body Ret.

Definition lift {A : Type} (o : outcome A) : io A :=
  match o with
  | Returned a => Ret a
  | Raised e => Raise e
  end.

(** The service and the session objects, seen from the client: what a
    [post] on a session resolves to, or the exception it raises. *)
Definition network : Type := Session → string → json → outcome Response.

Record exchange : Type := mkExchange {
  ex_session : Session;
  ex_url : string;
  ex_body : json;
  ex_reply : outcome Response
}.

(** Running a computation against a network: the exchanges performed, in
    order, and how the call ends. An exception of [post] ends the call. *)
Fixpoint run {A : Type} (net : network) (p : io A) : list exchange * outcome A :=
  match p with
  | Ret a => ([], Returned a)
  | Raise e => ([], Raised e)
  | Post s url body k =>
      match net s url body with
      | Raised e => ([mkExchange s url body (Raised e)], Raised e)
      | Returned r =>
          let '(t, o) := run net (k r) in
          (mkExchange s url body (Returned r) :: t, o)
      end
  end.

Definition exchanges {A : Type} (net : network) (p : io A) : list exchange :=
  (run net p).1.

Definition result {A : Type} (net : network) (p : io A) : outcome A :=
  (run net p).2.

(** The request bodies sent and the responses received during a call. *)
Definition sent {A : Type} (net : network) (p : io A) : list json :=
  ex_body <$> exchanges net p.

Definition received {A : Type} (net : network) (p : io A) : list Response :=
  omap (λ x, match ex_reply x with Returned r => Some r | Raised _ => None end)
       (exchanges net p).

(** ** Operations on decoded values *)

(** [v[key]] with a [str] key. *)
Definition getitem (v : json) (key : string) : io json :=
  match v with
  | JObj m => match m !! key with
              | Some x => Ret x
              | None => Raise (KeyError (JStr key))
              end
  | _ => Raise TypeError
  end.

(** [v[0]]. The keys of a decoded object are [str], so [0] is never one. *)
Definition getitem0 (v : json) : io json :=
  match v with
  | JArr (x :: _) => Ret x
  | JArr [] => Raise IndexError
  | JStr (String c _) => Ret (JStr (String c ""))
  | JStr "" => Raise IndexError
  | JObj _ => Raise (KeyError (JInt 0))
  | _ => Raise TypeError
  end.

(** [v.get(key)]: only a [dict] has the method. *)
Definition get (v : json) (key : string) : io json :=
  match v with
  | JObj m => Ret (default JNull (m !! key))
  | _ => Raise AttributeError
  end.

(** [for x in v]: the elements of a list, the characters of a string, the
    keys of a dict (in the map's order). *)
Definition iter (v : json) : io (list json) :=
  match v with
  | JArr l => Ret l
  | JStr s => Ret ((λ c, JStr (String c "")) <$> String.list_ascii_of_string s)
  | JObj m => Ret ((λ kv, JStr kv.1) <$> map_to_list m)
  | _ => Raise TypeError
  end.

(** A call [f(a, k=v, **kw)]: a key of [kw] naming a parameter that is
    already bound, by position or by an explicit keyword, is a [TypeError]
    ("got multiple values for argument"); otherwise [kw] is passed on. *)
Definition star_kwargs (bound : list string) (kw : gmap string json)
  : io (gmap string json) :=
  if existsb (λ k, bool_decide (is_Some (kw !! k))) bound
  then Raise TypeError
  else Ret kw.

(** ** Collaborators outside [client.py] *)

(** Modelled from the spec: [kadal/query.py] is not part of the sources; the
    five query templates are opaque strings supplied by that module. *)
Class query_module : Type := {
  MEDIA_SEARCH : string;
  MEDIA_BY_ID : string;
  MEDIA_PAGED : string;
  USER_SEARCH : string;
  USER_BY_ID : string
}.

(** Modelled from the spec: [kadal/media.py] and [kadal/user.py] are not part
    of the sources. [Media(rawObject, page)] and [User(rawObject)] are opaque
    to the pipeline, so a domain object is the record of the arguments its
    constructor received; [page] defaults to [False]. *)
Inductive Media_object : Type :=
| Media (data : json) (page : bool).

Inductive User_object : Type :=
| User (data : json).

(** What the interpreter finds at construction time: whether [import aiohttp]
    and [import asks] succeed, and what [asyncio.get_event_loop()] does: it
    gives the current loop, or raises ([RuntimeError] when the thread has
    none). *)
Record Environment : Type := mkEnvironment {
  aiohttp_importable : bool;
  asks_importable : bool;
  asyncio_get_event_loop : outcome Loop
}.

(** ** [client.py] *)

Definition URL : string := "https://graphql.anilist.co".

Record Client : Type := mkClient {
  _lib : pyobj;
  session : Session
}.

(** A keyword parameter left out takes its default. *)
Definition arg {A : Type} (dflt : A) (given : option A) : A := default dflt given.

(** [x or y] for an [x] that is [None] or an object: [x] when it is truthy,
    else [y], which is evaluated only then. *)
Definition or_else {A : Type} (truth : A → bool) (x : option A) (y : io A)
  : io A :=
  match x with
  | Some a => if truth a then Ret a else y
  | None => y
  end.

Definition _make_session (env : Environment) (lib : pyobj) (loop : option Loop)
  : io Session :=
  if eq_str lib "asyncio" then
    if aiohttp_importable env then Ret (aiohttp_ClientSession loop)
    else Raise (ImportError
      "To use Kadal in asyncio mode, it requires the `aiohttp` module.")
  else
    if asks_importable env then Ret asks_Session
    else Raise (ImportError
      "To use Kadal in curio/trio mode, it requires the `asks` module.").

Definition __init__ (env : Environment)
    (session : option Session) (lib : option pyobj) (loop : option Loop)
  : io Client :=
  let lib := arg (PyStr "asyncio") lib in
  if negb (existsb (eq_str lib) ["asyncio"; "multio"]) then
    Raise (ValueError
      ("lib must be of type `str` and be either `asyncio` or `multio`, not `"
       +:+ match lib with PyStr s => s | PyOther c => c end +:+ "`"))
  else
    loop ← (if eq_str lib "asyncio" then
              (* import asyncio; loop = loop or asyncio.get_event_loop() *)
              l ← or_else loop_truth loop (lift (asyncio_get_event_loop env));
              Ret (Some l)
            else Ret loop);
    session ← or_else session_truth session (_make_session env lib loop);
    Ret (mkClient lib session).

Definition handle_error (error : json) : io unit :=
  msg ← getitem error "message";
  status ← getitem error "status";
  if eq_int status 404
  then Raise (MediaNotFound msg status)
  else Raise (KadalError msg status).

Section Pipeline.
Context {queries : query_module}.

Definition _request (self : Client) (query : string)
    (variables : gmap string json) : io json :=
  (* [self] and [query] are bound by position *)
  variables ← star_kwargs ["self"; "query"] variables;
  r ← post (session self) URL
        (JObj {[ "query" := JStr query; "variables" := JObj variables ]});
  data ← (if eq_str (_lib self) "asyncio"
          then lift (json_method r)      (* await r.json() *)
          else lift (json_method r));    (* r.json() *)
  errors ← get data "errors";
  if truthy errors then
    errors ← getitem data "errors";
    first ← getitem0 errors;
    handle_error first;;
    Ret data
  else Ret data.

Definition _paged_request (self : Client) (page perPage : option json)
    (variables : gmap string json) : io json :=
  let page := arg (JInt 1) page in
  let perPage := arg (JInt 50) perPage in
  (* _request(MEDIA_PAGED, page=page, perPage=perPage, **variables) *)
  variables ← star_kwargs ["page"; "perPage"] variables;
  data ← _request self MEDIA_PAGED
           (<["page" := page]> (<["perPage" := perPage]> variables));
  data ← getitem data "data";
  Page ← getitem data "Page";
  lst ← getitem Page "media";
  if negb (truthy lst)
  then Raise (MediaNotFound (JStr "Not Found.") (JInt 404))
  else Ret lst.

Definition get_anime (self : Client) (id : json) : io Media_object :=
  data ← _request self MEDIA_BY_ID {[ "id" := id; "type" := JStr "ANIME" ]};
  Ret (Media data false).

Definition get_manga (self : Client) (id : json) : io Media_object :=
  data ← _request self MEDIA_BY_ID {[ "id" := id; "type" := JStr "MANGA" ]};
  Ret (Media data false).

Definition get_user (self : Client) (id : json) : io User_object :=
  data ← _request self USER_BY_ID {[ "id" := id ]};
  Ret (User data).

Definition custom_paged_search (self : Client) (page perPage : option json)
    (variables : gmap string json) : io (list Media_object) :=
  let page := arg (JInt 1) page in
  let perPage := arg (JInt 50) perPage in
  (* _paged_request(page=page, perPage=perPage, **variables) *)
  variables ← star_kwargs ["self"; "page"; "perPage"] variables;
  lst ← _paged_request self (Some page) (Some perPage) variables;
  entries ← iter lst;
  Ret (map (λ media_data, Media media_data true) entries).

Definition search_anime (self : Client) (query : json)
    (popularity allow_adult : option bool) : io Media_object :=
  let popularity := arg false popularity in
  let allow_adult := arg false allow_adult in
  let variables : gmap string json :=
    {[ "search" := query; "type" := JStr "ANIME" ]} in
  let variables :=
    if negb allow_adult then <["isAdult" := JBool false]> variables
    else variables in
  data ← (if popularity then
            lst ← _paged_request self None None variables;
            getitem0 lst
          else _request self MEDIA_SEARCH variables);
  Ret (Media data popularity).

Definition search_manga (self : Client) (query : json)
    (popularity include_novels allow_adult : option bool) : io Media_object :=
  let popularity := arg false popularity in
  let include_novels := arg false include_novels in
  let allow_adult := arg false allow_adult in
  let exclude := if negb include_novels then JStr "NOVEL" else JNull in
  let variables : gmap string json :=
    {[ "search" := query; "type" := JStr "MANGA"; "exclude" := exclude ]} in
  let variables :=
    if negb allow_adult then <["isAdult" := JBool false]> variables
    else variables in
  data ← (if popularity then
            lst ← _paged_request self None None variables;
            getitem0 lst
          else _request self MEDIA_SEARCH variables);
  Ret (Media data popularity).

Definition search_user (self : Client) (query : json) : io User_object :=
  data ← _request self USER_SEARCH {[ "search" := query ]};
  Ret (User data).

End Pipeline.

(** ** Vocabulary of the specification *)

(** [data.<key>] of a decoded response. *)
Definition field (key : string) (v : json) : option json :=
  match v with
  | JObj m => m !! key
  | _ => None
  end.

(** [data.<k1>.<k2>...]. *)
Fixpoint at_path (path : list string) (v : json) : option json :=
  match path with
  | [] => Some v
  | key :: path' => field key v ≫= at_path path'
  end.

(** The state [Succeeded] of a call: the decoded body is an object whose
    [errors] member is absent, null or empty. *)
Definition succeeded (data : json) : bool :=
  match data with
  | JObj m => negb (truthy (default JNull (m !! "errors")))
  | _ => false
  end.

(** The [variables] member of each request body. *)
Definition variables_of (body : json) : option (gmap string json) :=
  match field "variables" body with
  | Some (JObj v) => Some v
  | _ => None
  end.

Definition outgoing_variables {A : Type} (net : network) (p : io A)
  : list (gmap string json) :=
  omap variables_of (sent net p).

(** The [query] member of each request body. *)
Definition queries_sent {A : Type} (net : network) (p : io A) : list json :=
  omap (field "query") (sent net p).

(** The call [p] received one response, and its body decodes to [data]. *)
Definition responded {A : Type} (net : network) (p : io A) (data : json) : Prop :=
  ∃ r, received net p = [r] ∧ json_method r = Returned data.

(** A computation that performs no exchange: it returns or raises at once. *)
Definition silent {A : Type} (p : io A) : Prop :=
  match p with
  | Post _ _ _ _ => False
  | _ => True
  end.

(** The two halves of [search_anime] and [search_manga], named for the
    statements below: the variables they build, and the dispatch that
    follows, which is the same in both. *)
Definition anime_variables (query : json) (allow_adult : option bool)
  : gmap string json :=
  let variables : gmap string json :=
    {[ "search" := query; "type" := JStr "ANIME" ]} in
  if negb (arg false allow_adult) then <["isAdult" := JBool false]> variables
  else variables.

Definition manga_variables (query : json)
    (include_novels allow_adult : option bool) : gmap string json :=
  let exclude :=
    if negb (arg false include_novels) then JStr "NOVEL" else JNull in
  let variables : gmap string json :=
    {[ "search" := query; "type" := JStr "MANGA"; "exclude" := exclude ]} in
  if negb (arg false allow_adult) then <["isAdult" := JBool false]> variables
  else variables.

Definition search_body {queries : query_module} (self : Client) (variables : gmap string json)
    (popularity : bool) : io Media_object :=
  data ← (if popularity then
            lst ← _paged_request self None None variables;
            getitem0 lst
          else _request self MEDIA_SEARCH variables);
  Ret (Media data popularity).

(** Whether the HTTP library of a mode can be imported: [aiohttp] for
    [asyncio], [asks] for the other mode. *)
Definition required_library_importable (env : Environment) (mode : pyobj) : bool :=
  if eq_str mode "asyncio" then aiohttp_importable env else asks_importable env.

(** An argument that counts for [or]: given, and truthy. *)
Definition usable {A : Type} (truth : A → bool) (x : option A) : option A :=
  match x with
  | Some a => if truth a then Some a else None
  | None => None
  end.

(** The loop construction goes on with: in [asyncio] mode the loop given,
    when usable, else what [asyncio.get_event_loop()] gives or raises; in
    the other mode the [loop] argument as it is. *)
Definition resolved_loop (env : Environment) (mode : pyobj) (loop : option Loop)
  : outcome (option Loop) :=
  if eq_str mode "asyncio" then
    match usable loop_truth loop with
    | Some l => Returned (Some l)
    | None => match asyncio_get_event_loop env with
              | Returned l => Returned (Some l)
              | Raised e => Raised e
              end
    end
  else Returned loop.

(** The session [_make_session] builds for a mode and a loop. *)
Definition default_session (mode : pyobj) (loop : option Loop) : Session :=
  if eq_str mode "asyncio" then aiohttp_ClientSession loop else asks_Session.

Definition bare_environment : Environment :=
  mkEnvironment false false (Returned (LoopHandle 0)).

(** A thread without a current event loop. *)
Definition loopless_environment : Environment :=
  mkEnvironment true true (Raised RuntimeError).

(** ** Sample data for the concrete runs *)

(** Sample collaborators and networks for the concrete runs below. *)
Definition sample_queries : query_module := {|
  MEDIA_SEARCH := "query ($search: String) { Media (search: $search) { id } }";
  MEDIA_BY_ID := "query ($id: Int) { Media (id: $id) { id } }";
  MEDIA_PAGED := "query ($page: Int) { Page (page: $page) { media { id } } }";
  USER_SEARCH := "query ($search: String) { User (search: $search) { id } }";
  USER_BY_ID := "query ($id: Int) { User (id: $id) { id } }"
|}.

(** A stub service: every [post] resolves to a response decoding to [data]. *)
Definition stub (data : json) : network :=
  λ _ _ _, Returned (mkResponse (Returned data)).

Definition sample_client : Client :=
  mkClient (PyStr "asyncio") (SuppliedSession 0).

Definition error_entry (msg : string) (st : Z) : json :=
  JObj {[ "message" := JStr msg; "status" := JInt st ]}.

Definition two_errors_response : json :=
  JObj {[ "errors" := JArr [error_entry "Not Found." 404;
                            error_entry "Later." 500] ]}.

Definition no_status_response : json :=
  JObj {[ "errors" := JArr [JObj {[ "message" := JStr "Internal error." ]}] ]}.

Definition empty_page_response : json :=
  JObj {[ "data" := JObj {[ "Page" := JObj {[ "media" := JArr [] ]} ]} ]}.

Definition two_entries_response : json :=
  JObj {[ "data" := JObj {[ "Page" := JObj {[ "media" :=
    JArr [JObj {[ "id" := JInt 1 ]}; JObj {[ "id" := JInt 2 ]}] ]} ]} ]}.

Definition single_media_response : json :=
  JObj {[ "data" := JObj {[ "Media" :=
    JObj {[ "id" := JInt 1; "title" := JStr "X" ]} ]} ]}.

Definition single_user_response : json :=
  JObj {[ "data" := JObj {[ "User" := JObj {[ "id" := JInt 7 ]} ]} ]}.

Definition null_data_response : json :=
  JObj {[ "data" := JNull ]}.

Definition bare_message_response : json :=
  JObj {[ "errors" := JArr [JStr "Syntax error."] ]}.

(** ** The public methods as one interface *)

(** A call of a public method of [Client] with its arguments, and what it
    hands back; [perform] is the method call itself. *)
Inductive api_call : Type :=
| Get_anime (id : json)
| Get_manga (id : json)
| Get_user (id : json)
| Custom_paged_search (page perPage : option json)
    (variables : gmap string json)
| Search_anime (query : json) (popularity allow_adult : option bool)
| Search_manga (query : json) (popularity include_novels allow_adult : option bool)
| Search_user (query : json).

Inductive answer : Type :=
| A_Media (m : Media_object)
| A_User (u : User_object)
| A_Media_list (l : list Media_object).

Definition perform {queries : query_module} (self : Client) (c : api_call)
  : io answer :=
  match c with
  | Get_anime id => m ← get_anime self id; Ret (A_Media m)
  | Get_manga id => m ← get_manga self id; Ret (A_Media m)
  | Get_user id => u ← get_user self id; Ret (A_User u)
  | Custom_paged_search page perPage variables =>
      l ← custom_paged_search self page perPage variables; Ret (A_Media_list l)
  | Search_anime query popularity allow_adult =>
      m ← search_anime self query popularity allow_adult; Ret (A_Media m)
  | Search_manga query popularity include_novels allow_adult =>
      m ← search_manga self query popularity include_novels allow_adult;
      Ret (A_Media m)
  | Search_user query => u ← search_user self query; Ret (A_User u)
  end.

(** The body [_request] posts. *)
Definition request_body (query : string) (variables : gmap string json) : json :=
  JObj {[ "query" := JStr query; "variables" := JObj variables ]}.

(** A network whose every [post] raises [e]. *)
Definition unreachable (e : exn) : network := λ _ _ _, Raised e.

(** A service whose responses cannot be decoded: [json()] raises [e]. *)
Definition undecodable (e : exn) : network :=
  λ _ _ _, Returned (mkResponse (Raised e)).

(** A computation that is one dispatch followed by steps without exchange,
    or that fails on its keyword arguments before it dispatches. *)
Definition dispatching {A : Type} (self : Client) (p : io A) : Prop :=
  p = Raise TypeError ∨
  ∃ query variables (tail : json → io A),
    (∀ d, silent (tail d)) ∧
    ∀ net, run net p = run net (_request self query variables ≫= tail).

(** ** Running computations *)

Section Running.
Context {A B : Type} (net : network).
Implicit Types (m : io A) (f : A → io B).

Lemma run_bind m f :
  run net (m ≫= f) =
    match run net m with
    | (t, Returned a) => let '(t', o) := run net (f a) in (t ++ t', o)
    | (t, Raised e) => (t, Raised e)
    end.
Proof.
  induction m as [a|e|s url body k IH]; cbn.
  - by destruct (run net (f a)).
  - done.
  - destruct (net s url body) as [r|e]; [|done].
    change (io_bind f (k r)) with (k r ≫= f). rewrite IH.
    destruct (run net (k r)) as [t [a|e]]; [|done].
    by destruct (run net (f a)).
Qed.

Lemma result_bind m f :
  result net (m ≫= f) =
    match result net m with
    | Returned a => result net (f a)
    | Raised e => Raised e
    end.
Proof.
  unfold result. rewrite run_bind.
  destruct (run net m) as [t [a|e]]; cbn; [|done].
  by destruct (run net (f a)).
Qed.

Lemma exchanges_silent m : silent m → exchanges net m = [].
Proof. by destruct m. Qed.

Lemma exchanges_bind_silent m f :
  (∀ a, silent (f a)) → exchanges net (m ≫= f) = exchanges net m.
Proof.
  intros Hf. unfold exchanges. rewrite run_bind.
  destruct (run net m) as [t [a|e]]; [|done].
  specialize (Hf a).
  destruct (f a); cbn in *; [by rewrite app_nil_r..|done].
Qed.

Lemma received_bind_silent m f :
  (∀ a, silent (f a)) → received net (m ≫= f) = received net m.
Proof. intros Hf. unfold received. by rewrite exchanges_bind_silent. Qed.

Lemma sent_bind_silent m f :
  (∀ a, silent (f a)) → sent net (m ≫= f) = sent net m.
Proof. intros Hf. unfold sent. by rewrite exchanges_bind_silent. Qed.

(** The request of a [post] is sent whatever comes back. *)
Lemma sent_Post s url body (k : Response → io A) :
  (∀ r', silent (k r')) → sent net (Post s url body k) = [body].
Proof.
  intros Hk. unfold sent, exchanges. cbn.
  destruct (net s url body) as [r'|e]; [|done].
  specialize (Hk r'). by destruct (k r').
Qed.

Lemma silent_bind m f : silent m → (∀ a, silent (f a)) → silent (m ≫= f).
Proof. destruct m; cbn; intros; [auto|done|done]. Qed.

(** A call that received exactly [r] sent its one request, [r] was the
    reply, and the call ends as what follows the [await] does. *)
Lemma received_Post s url body (k : Response → io A) r :
  (∀ r', silent (k r')) →
  received net (Post s url body k) = [r] →
  net s url body = Returned r ∧
  result net (Post s url body k) = result net (k r) ∧
  sent net (Post s url body k) = [body].
Proof.
  intros Hk. unfold received, exchanges, result, sent, exchanges. cbn.
  destruct (net s url body) as [r'|e] eqn:Hnet; [|done].
  pose proof (Hk r') as Hs.
  destruct (k r') eqn:Hkr; cbn in *; [| |done];
    intros [= ->]; by rewrite Hkr.
Qed.
End Running.

Lemma bind_Ret {A B : Type} (a : A) (f : A → io B) : Ret a ≫= f = f a.
Proof. reflexivity. Qed.

Lemma silent_lift {A : Type} (o : outcome A) : silent (lift o).
Proof. by destruct o. Qed.

Lemma silent_getitem v key : silent (getitem v key).
Proof. destruct v; cbn; try done. by destruct (_ !! _). Qed.

Lemma silent_getitem0 v : silent (getitem0 v).
Proof. destruct v as [| | | |[|]|[|]|]; by cbn. Qed.

Lemma silent_get v key : silent (get v key).
Proof. by destruct v. Qed.

Lemma silent_iter v : silent (iter v).
Proof. by destruct v. Qed.

Lemma silent_handle_error error : silent (handle_error error).
Proof.
  unfold handle_error.
  apply silent_bind; [apply silent_getitem|intros msg].
  apply silent_bind; [apply silent_getitem|intros st].
  by destruct (eq_int st 404).
Qed.

Create HintDb silent.
#[export] Hint Resolve silent_lift silent_getitem silent_getitem0 silent_get
  silent_iter silent_handle_error : silent.

(** Closes [silent p] for a [p] built from the silent operations above. *)
Ltac solve_silent :=
  repeat first
    [ progress intros
    | solve [eauto with silent]
    | exact I
    | apply silent_bind
    | match goal with |- silent (if ?c then _ else _) => destruct c end ].

(** ** Dispatch *)

Section Dispatch.
Context {queries : query_module} (net : network) (self : Client).
Implicit Types (variables : gmap string json) (data : json).

(** Steps over the [await]: from a call that received [r] to what the
    rest of [_request] does with [r]. *)
Ltac await_reply Hrecv :=
  unfold _request, star_kwargs in *;
  destruct (existsb _ _); [done|];
  cbn in Hrecv |- *;
  apply received_Post in Hrecv as (_ & -> & _); [|solve_silent].

Lemma request_returns query variables data :
  responded net (_request self query variables) data →
  succeeded data = true →
  result net (_request self query variables) = Returned data.
Proof.
  intros (r & Hrecv & Hjson) Hok. await_reply Hrecv.
  rewrite Hjson. destruct data as [| | | | | |m]; try done.
  cbn in Hok. apply negb_true_iff in Hok.
  destruct (eq_str _ _); cbn; by rewrite Hok.
Qed.

Lemma request_raises query variables m first rest :
  responded net (_request self query variables) (JObj m) →
  m !! "errors" = Some (JArr (first :: rest)) →
  result net (_request self query variables) =
    match result net (handle_error first) with
    | Returned _ => Returned (JObj m)
    | Raised e => Raised e
    end.
Proof.
  intros (r & Hrecv & Hjson) Herr. await_reply Hrecv.
  rewrite Hjson.
  destruct (eq_str _ _); cbn; rewrite Herr; cbn;
    change (io_bind ?f ?x) with (x ≫= f); by rewrite result_bind.
Qed.

(** The one request of a dispatch carries the query and the variables. *)
Lemma request_sent query variables :
  existsb (λ k, bool_decide (is_Some (variables !! k))) ["self"; "query"]
    = false →
  sent net (_request self query variables) =
    [JObj {[ "query" := JStr query; "variables" := JObj variables ]}].
Proof.
  intros Hfree. unfold _request, star_kwargs. rewrite Hfree, bind_Ret.
  cbn. apply sent_Post. solve_silent.
Qed.

Lemma handle_error_raises e msg st :
  e !! "message" = Some msg →
  e !! "status" = Some st →
  result net (handle_error (JObj e)) =
    Raised (if eq_int st 404 then MediaNotFound msg st else KadalError msg st).
Proof.
  intros Hmsg Hst. unfold handle_error. cbn. rewrite Hmsg. cbn. rewrite Hst.
  cbn. by destruct (eq_int st 404).
Qed.

(** C1. When the decoded response has a non-empty [errors] array, the
    dispatch looks at its first entry only and raises: [MediaNotFound]
    with the entry's message when the entry's status equals 404,
    [KadalError] with the entry's message and status otherwise. Nothing is
    returned, and the entries after the first play no part. *)
Theorem first_error_entry_is_raised query variables m e rest msg st :
  responded net (_request self query variables) (JObj m) →
  m !! "errors" = Some (JArr (JObj e :: rest)) →
  e !! "message" = Some msg →
  e !! "status" = Some st →
  result net (_request self query variables) =
    Raised (if eq_int st 404 then MediaNotFound msg st else KadalError msg st).
Proof.
  intros Hresp Herr Hmsg Hst.
  rewrite (request_raises _ _ _ _ _ Hresp Herr).
  rewrite (handle_error_raises _ _ _ Hmsg Hst).
  by destruct (eq_int st 404).
Qed.

(** C9, as the code has it. When the first entry of a non-empty [errors]
    array is an object without a [status] member, the subscript
    [error['status']] (or [error['message']], which is read first, when
    that is missing too) raises [KeyError]: the failure is neither
    [MediaNotFound] nor [KadalError], and [except KadalError] does not
    catch it. *)
Theorem status_absent_raises_KeyError query variables m e rest :
  responded net (_request self query variables) (JObj m) →
  m !! "errors" = Some (JArr (JObj e :: rest)) →
  e !! "status" = None →
  ∃ exc,
    result net (_request self query variables) = Raised exc ∧
    exc = KeyError (JStr (match e !! "message" with
                         | Some _ => "status"
                         | None => "message"
                         end)) ∧
    caught_by KadalError_cls exc = false ∧
    caught_by LookupError_cls exc = true.
Proof.
  intros Hresp Herr Hst.
  rewrite (request_raises _ _ _ _ _ Hresp Herr).
  unfold handle_error. cbn.
  destruct (e !! "message") as [msg|]; cbn; [rewrite Hst; cbn|]; eauto.
Qed.
End Dispatch.

(** A stub answers the one request of a call. *)
Lemma stub_responded {A : Type} (p : io A) data :
  received (stub data) p = [mkResponse (Returned data)] →
  responded (stub data) p data.
Proof. intros Hrecv. by eexists. Defined.

Lemma first_error_entry_is_raised_witness :
  result (stub two_errors_response)
         (_request sample_client (@MEDIA_BY_ID sample_queries)
                   {[ "id" := JInt 1 ]})
  = Raised (MediaNotFound (JStr "Not Found.") (JInt 404)).
Proof.
  exact (first_error_entry_is_raised
           (stub two_errors_response) sample_client
           (@MEDIA_BY_ID sample_queries) {[ "id" := JInt 1 ]}
           {[ "errors" := JArr [error_entry "Not Found." 404;
                                error_entry "Later." 500] ]}
           {[ "message" := JStr "Not Found."; "status" := JInt 404 ]}
           [error_entry "Later." 500] (JStr "Not Found.") (JInt 404)
           ltac:(by apply stub_responded) eq_refl eq_refl eq_refl).
Defined.

Lemma status_absent_raises_KeyError_witness :
  ∃ exc,
    result (stub no_status_response)
           (_request sample_client (@MEDIA_BY_ID sample_queries)
                     {[ "id" := JInt 1 ]}) = Raised exc ∧
    exc = KeyError (JStr "status") ∧
    caught_by KadalError_cls exc = false ∧
    caught_by LookupError_cls exc = true.
Proof.
  exact (status_absent_raises_KeyError
           (stub no_status_response) sample_client
           (@MEDIA_BY_ID sample_queries) {[ "id" := JInt 1 ]}
           {[ "errors" := JArr [JObj {[ "message" := JStr "Internal error." ]}] ]}
           {[ "message" := JStr "Internal error." ]} []
           ltac:(by apply stub_responded) eq_refl eq_refl).
Defined.

(** The claim of C9 fails on a response whose only error entry has a
    message and no status: the call ends in [KeyError('status')], which is
    no [KadalError] with whatever message and status. *)
Lemma status_absent_not_generic :
  responded (stub no_status_response)
            (_request sample_client (@MEDIA_BY_ID sample_queries)
                      {[ "id" := JInt 1 ]}) no_status_response ∧
  result (stub no_status_response)
         (_request sample_client (@MEDIA_BY_ID sample_queries)
                   {[ "id" := JInt 1 ]}) = Raised (KeyError (JStr "status")) ∧
  ¬ (∃ msg st,
       result (stub no_status_response)
              (_request sample_client (@MEDIA_BY_ID sample_queries)
                        {[ "id" := JInt 1 ]}) = Raised (KadalError msg st)).
Proof.
  split; [by apply stub_responded|]. split; [reflexivity|].
  intros (msg & st & Heq). vm_compute in Heq. discriminate.
Qed.

(** ** Paged dispatch and the public methods *)

Lemma getitem_field v key x : field key v = Some x → getitem v key = Ret x.
Proof. destruct v; cbn; try done. by intros ->. Qed.

Lemma at_path_cons key path v x :
  at_path (key :: path) v = Some x →
  ∃ y, field key v = Some y ∧ at_path path y = Some x.
Proof. cbn. intros (y & ? & ?)%bind_Some. eauto. Qed.

Section Paged.
Context {queries : query_module} (net : network) (self : Client).
Implicit Types (variables : gmap string json) (r : Response) (data lst : json).

(** After a successful dispatch, [_paged_request] hands back
    [data.Page.media] when it is truthy, and raises otherwise. *)
Lemma paged_request_result page perPage variables data lst :
  responded net (_paged_request self page perPage variables) data →
  succeeded data = true →
  at_path ["data"; "Page"; "media"] data = Some lst →
  result net (_paged_request self page perPage variables) =
    if truthy lst then Returned lst
    else Raised (MediaNotFound (JStr "Not Found.") (JInt 404)).
Proof.
  intros (r & Hrecv & Hjson) Hok Hpath.
  unfold _paged_request, star_kwargs in *.
  destruct (existsb _ _); [done|].
  rewrite bind_Ret in Hrecv |- *.
  rewrite received_bind_silent in Hrecv by solve_silent.
  rewrite result_bind, (request_returns net self _ _ data) by (done || by exists r).
  apply at_path_cons in Hpath as (d & Hd & Hpath).
  apply at_path_cons in Hpath as (p & Hp & Hpath).
  apply at_path_cons in Hpath as (l & Hl & [= ->]).
  rewrite (getitem_field _ _ _ Hd), bind_Ret.
  rewrite (getitem_field _ _ _ Hp), bind_Ret.
  rewrite (getitem_field _ _ _ Hl), bind_Ret.
  by destruct (truthy lst).
Qed.

Lemma search_anime_body query popularity allow_adult :
  search_anime self query popularity allow_adult =
    search_body self (anime_variables query allow_adult) (arg false popularity).
Proof. reflexivity. Qed.

Lemma search_manga_body query popularity include_novels allow_adult :
  search_manga self query popularity include_novels allow_adult =
    search_body self (manga_variables query include_novels allow_adult)
                (arg false popularity).
Proof. reflexivity. Qed.

Lemma search_body_popular variables data :
  responded net (search_body self variables true) data →
  responded net (_paged_request self None None variables) data ∧
  result net (search_body self variables true) =
    match result net (_paged_request self None None variables) with
    | Returned lst => match result net (getitem0 lst) with
                      | Returned x => Returned (Media x true)
                      | Raised e => Raised e
                      end
    | Raised e => Raised e
    end.
Proof.
  intros (r & Hrecv & Hjson). unfold search_body in *.
  rewrite !received_bind_silent in Hrecv by solve_silent.
  split; [by exists r|].
  rewrite !result_bind.
  destruct (result net (_paged_request _ _ _ _)) as [lst|e]; [|done].
  by destruct (result net (getitem0 lst)).
Qed.

Lemma search_body_plain variables data :
  responded net (search_body self variables false) data →
  responded net (_request self MEDIA_SEARCH variables) data ∧
  result net (search_body self variables false) =
    match result net (_request self MEDIA_SEARCH variables) with
    | Returned whole => Returned (Media whole false)
    | Raised e => Raised e
    end.
Proof.
  intros (r & Hrecv & Hjson). unfold search_body in *.
  rewrite received_bind_silent in Hrecv by solve_silent.
  split; [by exists r|].
  rewrite result_bind.
  by destruct (result net (_request _ _ _)).
Qed.

Lemma custom_paged_search_via page perPage variables data :
  responded net (custom_paged_search self page perPage variables) data →
  responded net (_paged_request self (Some (arg (JInt 1) page))
                   (Some (arg (JInt 50) perPage)) variables) data ∧
  result net (custom_paged_search self page perPage variables) =
    match result net (_paged_request self (Some (arg (JInt 1) page))
                        (Some (arg (JInt 50) perPage)) variables) with
    | Returned lst =>
        match result net (iter lst) with
        | Returned entries =>
            Returned (map (λ media_data, Media media_data true) entries)
        | Raised e => Raised e
        end
    | Raised e => Raised e
    end.
Proof.
  intros (r & Hrecv & Hjson). unfold custom_paged_search, star_kwargs in *.
  destruct (existsb _ _); [done|].
  rewrite bind_Ret in Hrecv |- *.
  rewrite received_bind_silent in Hrecv by solve_silent.
  split; [by exists r|].
  rewrite result_bind.
  destruct (result net (_paged_request _ _ _ _)) as [lst|e]; [|done].
  rewrite result_bind.
  by destruct (result net (iter lst)).
Qed.
End Paged.

Section PagedResults.
Context {queries : query_module} (net : network) (self : Client).
Implicit Types (variables : gmap string json) (data : json).

(** C2. A paged dispatch whose response, free of errors, has an empty
    [data.Page.media] raises [MediaNotFound("Not Found.", 404)]: through
    [_paged_request], [custom_paged_search], and [search_anime] and
    [search_manga] with [popularity=True]. The variables, page and page
    size of the call are arbitrary, and nothing is returned. *)
Theorem empty_page_raises_MediaNotFound
    page perPage variables query include_novels allow_adult data :
  succeeded data = true →
  at_path ["data"; "Page"; "media"] data = Some (JArr []) →
  (responded net (_paged_request self page perPage variables) data →
   result net (_paged_request self page perPage variables)
     = Raised (MediaNotFound (JStr "Not Found.") (JInt 404))) ∧
  (responded net (custom_paged_search self page perPage variables) data →
   result net (custom_paged_search self page perPage variables)
     = Raised (MediaNotFound (JStr "Not Found.") (JInt 404))) ∧
  (responded net (search_anime self query (Some true) allow_adult) data →
   result net (search_anime self query (Some true) allow_adult)
     = Raised (MediaNotFound (JStr "Not Found.") (JInt 404))) ∧
  (responded net
     (search_manga self query (Some true) include_novels allow_adult) data →
   result net (search_manga self query (Some true) include_novels allow_adult)
     = Raised (MediaNotFound (JStr "Not Found.") (JInt 404))).
Proof.
  intros Hok Hpath. repeat split.
  - intros Hresp. by rewrite (paged_request_result _ _ _ _ _ _ _ Hresp Hok Hpath).
  - intros (Hresp & ->)%custom_paged_search_via.
    by rewrite (paged_request_result _ _ _ _ _ _ _ Hresp Hok Hpath).
  - rewrite search_anime_body. change (arg false (Some true)) with true.
    intros (Hresp & ->)%search_body_popular.
    by rewrite (paged_request_result _ _ _ _ _ _ _ Hresp Hok Hpath).
  - rewrite search_manga_body. change (arg false (Some true)) with true.
    intros (Hresp & ->)%search_body_popular.
    by rewrite (paged_request_result _ _ _ _ _ _ _ Hresp Hok Hpath).
Qed.
End PagedResults.

Lemma empty_page_raises_MediaNotFound_witness :
  result (stub empty_page_response)
    (_paged_request (queries := sample_queries) sample_client None None
       {[ "type" := JStr "ANIME"; "sort" := JStr "SCORE_DESC" ]})
    = Raised (MediaNotFound (JStr "Not Found.") (JInt 404)) ∧
  result (stub empty_page_response)
    (custom_paged_search (queries := sample_queries) sample_client
       (Some (JInt 2)) None {[ "type" := JStr "ANIME" ]})
    = Raised (MediaNotFound (JStr "Not Found.") (JInt 404)) ∧
  result (stub empty_page_response)
    (search_anime (queries := sample_queries) sample_client (JStr "nothing")
       (Some true) None)
    = Raised (MediaNotFound (JStr "Not Found.") (JInt 404)) ∧
  result (stub empty_page_response)
    (search_manga (queries := sample_queries) sample_client (JStr "nothing")
       (Some true) None (Some true))
    = Raised (MediaNotFound (JStr "Not Found.") (JInt 404)).
Proof.
  pose proof (empty_page_raises_MediaNotFound (queries := sample_queries)
                (stub empty_page_response) sample_client) as W.
  split; [|split; [|split]].
  - apply (W None None {[ "type" := JStr "ANIME"; "sort" := JStr "SCORE_DESC" ]}
             JNull None None empty_page_response eq_refl eq_refl).
    by apply stub_responded.
  - apply (W (Some (JInt 2)) None {[ "type" := JStr "ANIME" ]}
             JNull None None empty_page_response eq_refl eq_refl).
    by apply stub_responded.
  - apply (W None None ∅ (JStr "nothing") None None
             empty_page_response eq_refl eq_refl).
    by apply stub_responded.
  - apply (W None None ∅ (JStr "nothing") None (Some true)
             empty_page_response eq_refl eq_refl).
    by apply stub_responded.
Defined.

Section PagedEntries.
Context {queries : query_module} (net : network) (self : Client).
Implicit Types (variables : gmap string json) (data : json).

(** No key of [variables] names a parameter in [names]. *)
Lemma star_kwargs_free (names : list string) variables :
  (∀ k, k ∈ names → variables !! k = None) →
  existsb (λ k, bool_decide (is_Some (variables !! k))) names = false.
Proof.
  intros Hfree. apply not_true_iff_false. intros (k & Hk & His)%existsb_exists.
  apply bool_decide_eq_true in His. apply list_elem_of_In, Hfree in Hk.
  rewrite Hk in His. by destruct His.
Qed.

(** The keys the two searches build are no parameter names of the calls
    they are passed to. *)
Lemma anime_variables_free query allow_adult k :
  k ∈ ["self"; "query"; "page"; "perPage"] →
  anime_variables query allow_adult !! k = None.
Proof.
  intros Hk. unfold anime_variables.
  destruct (negb _); set_unfold in Hk; destruct_or!; by simplify_map_eq.
Qed.

Lemma manga_variables_free query include_novels allow_adult k :
  k ∈ ["self"; "query"; "page"; "perPage"] →
  manga_variables query include_novels allow_adult !! k = None.
Proof.
  intros Hk. unfold manga_variables.
  destruct (negb _); set_unfold in Hk; destruct_or!; by simplify_map_eq.
Qed.

(** The one request of a search: the paged query with the default page and
    page size when [popularity] holds, the search query otherwise. *)
Lemma search_body_sent variables popularity :
  (∀ k, k ∈ ["self"; "query"; "page"; "perPage"] → variables !! k = None) →
  sent net (search_body self variables popularity) =
    [JObj {[ "query" := JStr (if popularity then MEDIA_PAGED else MEDIA_SEARCH);
             "variables" := JObj
               (if popularity
                then <["page" := JInt 1]> (<["perPage" := JInt 50]> variables)
                else variables) ]}].
Proof.
  intros Hfree. unfold search_body.
  rewrite sent_bind_silent by solve_silent. destruct popularity.
  - rewrite sent_bind_silent by solve_silent.
    unfold _paged_request, star_kwargs.
    rewrite star_kwargs_free, bind_Ret by (intros; apply Hfree; set_solver).
    rewrite sent_bind_silent by solve_silent.
    apply request_sent, star_kwargs_free. intros k Hk.
    rewrite !lookup_insert_ne by set_solver. apply Hfree. set_solver.
  - apply request_sent, star_kwargs_free. intros; apply Hfree; set_solver.
Qed.

(** C4. When the response, free of errors, has a [data.Page.media] list of
    length at least 1, [custom_paged_search] returns a list of as many
    [Media] objects, in the same order, each built from the entry at its
    position with [page=True]. *)
Theorem custom_paged_search_wraps_each_entry page perPage variables data l :
  responded net (custom_paged_search self page perPage variables) data →
  succeeded data = true →
  at_path ["data"; "Page"; "media"] data = Some (JArr l) →
  (1 ≤ length l)%nat →
  ∃ out,
    result net (custom_paged_search self page perPage variables) = Returned out ∧
    out = map (λ media_data, Media media_data true) l ∧
    length out = length l ∧
    ∀ (i : nat) entry, l !! i = Some entry → out !! i = Some (Media entry true).
Proof.
  intros (Hresp & ->)%custom_paged_search_via Hok Hpath Hlen.
  rewrite (paged_request_result _ _ _ _ _ _ _ Hresp Hok Hpath).
  destruct l as [|first rest]; [cbn in Hlen; lia|]. cbn [truthy].
  eexists. split; [reflexivity|]. split; [reflexivity|].
  split; [by rewrite length_map|].
  intros i entry Hi. by rewrite list_lookup_fmap, Hi.
Qed.

(** C5. With [popularity=True] and a response, free of errors, whose
    [data.Page.media] list has a first entry, [search_anime] and
    [search_manga] send the paged query and return that first entry as a
    [Media] with [page=True]. With [popularity] false or left out they send
    the search query, once, and return a [Media] with [page=False], built
    from the decoded response. *)
Theorem search_popularity_selects_dispatch
    query popularity include_novels allow_adult data :
  succeeded data = true →
  (∀ first rest,
     arg false popularity = true →
     at_path ["data"; "Page"; "media"] data = Some (JArr (first :: rest)) →
     (responded net (search_anime self query popularity allow_adult) data →
      result net (search_anime self query popularity allow_adult)
        = Returned (Media first true) ∧
      queries_sent net (search_anime self query popularity allow_adult)
        = [JStr MEDIA_PAGED]) ∧
     (responded net
        (search_manga self query popularity include_novels allow_adult) data →
      result net (search_manga self query popularity include_novels allow_adult)
        = Returned (Media first true) ∧
      queries_sent net
        (search_manga self query popularity include_novels allow_adult)
        = [JStr MEDIA_PAGED])) ∧
  (arg false popularity = false →
     (responded net (search_anime self query popularity allow_adult) data →
      result net (search_anime self query popularity allow_adult)
        = Returned (Media data false) ∧
      queries_sent net (search_anime self query popularity allow_adult)
        = [JStr MEDIA_SEARCH]) ∧
     (responded net
        (search_manga self query popularity include_novels allow_adult) data →
      result net (search_manga self query popularity include_novels allow_adult)
        = Returned (Media data false) ∧
      queries_sent net
        (search_manga self query popularity include_novels allow_adult)
        = [JStr MEDIA_SEARCH])).
Proof.
  intros Hok. rewrite search_anime_body, search_manga_body.
  unfold queries_sent.
  rewrite !search_body_sent
    by (apply anime_variables_free || apply manga_variables_free).
  split.
  - intros first rest -> Hpath.
    split; intros (Hresp & ->)%search_body_popular;
      by rewrite (paged_request_result _ _ _ _ _ _ _ Hresp Hok Hpath).
  - intros ->.
    split; intros (Hresp & ->)%search_body_plain;
      by rewrite (request_returns _ _ _ _ _ Hresp Hok).
Qed.

(** C10. The [MediaNotFound] raised for an empty page carries the message
    ["Not Found."] and the status [404]; it is the very exception the same
    call raises when the service reports an error entry with that message
    and status; and [MediaNotFound] derives from [KadalError], so that
    [except KadalError] catches it. *)
Theorem empty_page_error_is_a_service_404 page perPage variables data :
  responded net (_paged_request self page perPage variables) data →
  succeeded data = true →
  at_path ["data"; "Page"; "media"] data = Some (JArr []) →
  ∃ exc,
    result net (_paged_request self page perPage variables) = Raised exc ∧
    message exc = Some (JStr "Not Found.") ∧
    status exc = Some (JInt 404) ∧
    class_of exc = MediaNotFound_cls ∧
    base MediaNotFound_cls = Some KadalError_cls ∧
    caught_by KadalError_cls exc = true ∧
    ∀ net' m rest,
      responded net' (_paged_request self page perPage variables) (JObj m) →
      m !! "errors" = Some (JArr (error_entry "Not Found." 404 :: rest)) →
      result net' (_paged_request self page perPage variables) = Raised exc.
Proof.
  intros Hresp Hok Hpath.
  rewrite (paged_request_result _ _ _ _ _ _ _ Hresp Hok Hpath). cbn [truthy].
  eexists. do 6 (split; [reflexivity|]).
  intros net' m rest (r & Hrecv & Hjson) Herr.
  unfold _paged_request, star_kwargs, error_entry in *.
  destruct (existsb _ _); [done|].
  rewrite bind_Ret in Hrecv |- *.
  rewrite received_bind_silent in Hrecv by solve_silent.
  rewrite result_bind.
  rewrite (request_raises net' self _ _ m _ rest) by (done || by exists r).
  by rewrite (handle_error_raises net' _ (JStr "Not Found.") (JInt 404)).
Qed.
End PagedEntries.

Section SingleItem.
Context {queries : query_module} (net : network) (self : Client).
Implicit Types (data sub : json).

Lemma wrap_request {A : Type} query variables (wrap : json → A) data :
  responded net (_request self query variables ≫= λ whole, Ret (wrap whole)) data →
  succeeded data = true →
  result net (_request self query variables ≫= λ whole, Ret (wrap whole))
    = Returned (wrap data).
Proof.
  intros (r & Hrecv & Hjson) Hok.
  rewrite received_bind_silent in Hrecv by solve_silent.
  rewrite result_bind, (request_returns net self _ _ data); by try exists r.
Qed.

(** C3, as the code has it. For a single-item query whose response, free of
    errors, holds a non-null [data.Media] (for [get_anime] and [get_manga])
    or [data.User] (for [get_user]), the method returns the domain object
    built from the whole decoded response, the object that holds [data], and
    not from the sub-object; a [Media] is built with [page] left at
    [False]. *)
Theorem single_item_wraps_decoded_response id data sub :
  succeeded data = true →
  sub ≠ JNull →
  (responded net (get_anime self id) data →
   at_path ["data"; "Media"] data = Some sub →
   result net (get_anime self id) = Returned (Media data false)) ∧
  (responded net (get_manga self id) data →
   at_path ["data"; "Media"] data = Some sub →
   result net (get_manga self id) = Returned (Media data false)) ∧
  (responded net (get_user self id) data →
   at_path ["data"; "User"] data = Some sub →
   result net (get_user self id) = Returned (User data)).
Proof.
  intros Hok _. unfold get_anime, get_manga, get_user.
  split; [|split]; intros Hresp _.
  - by apply (wrap_request _ _ (λ whole, Media whole false)).
  - by apply (wrap_request _ _ (λ whole, Media whole false)).
  - by apply (wrap_request _ _ User).
Qed.
End SingleItem.

(** The claim of C3 fails on the scenario of the specification:
    [get_anime(1)] against a stub answering
    [{"data": {"Media": {"id": 1, "title": "X"}}}] builds its [Media] from
    that whole object, which is not the sub-object at [data.Media]. *)
Lemma get_anime_not_from_sub_object :
  let sub := JObj {[ "id" := JInt 1; "title" := JStr "X" ]} in
  let call := get_anime (queries := sample_queries) sample_client (JInt 1) in
  responded (stub single_media_response) call single_media_response ∧
  succeeded single_media_response = true ∧
  at_path ["data"; "Media"] single_media_response = Some sub ∧
  result (stub single_media_response) call
    = Returned (Media single_media_response false) ∧
  result (stub single_media_response) call ≠ Returned (Media sub false).
Proof.
  cbv zeta. split; [by apply stub_responded|]. do 3 (split; [reflexivity|]).
  intros Heq. vm_compute in Heq. discriminate.
Qed.

Lemma single_item_wraps_decoded_response_witness :
  result (stub single_media_response)
    (get_anime (queries := sample_queries) sample_client (JInt 1))
    = Returned (Media single_media_response false) ∧
  result (stub single_media_response)
    (get_manga (queries := sample_queries) sample_client (JInt 1))
    = Returned (Media single_media_response false) ∧
  result (stub single_user_response)
    (get_user (queries := sample_queries) sample_client (JInt 7))
    = Returned (User single_user_response).
Proof.
  assert (JObj {[ "id" := JInt 1; "title" := JStr "X" ]} ≠ JNull) as Hm by done.
  assert (JObj {[ "id" := JInt 7 ]} ≠ JNull) as Hu by done.
  pose proof (single_item_wraps_decoded_response (queries := sample_queries)
                (stub single_media_response) sample_client (JInt 1)
                single_media_response _ eq_refl Hm) as (Wa & Wm & _).
  pose proof (single_item_wraps_decoded_response (queries := sample_queries)
                (stub single_user_response) sample_client (JInt 7)
                single_user_response _ eq_refl Hu) as (_ & _ & Wu).
  split; [|split].
  - apply Wa; [by apply stub_responded|reflexivity].
  - apply Wm; [by apply stub_responded|reflexivity].
  - apply Wu; [by apply stub_responded|reflexivity].
Defined.

Lemma custom_paged_search_wraps_each_entry_witness :
  ∃ out,
    result (stub two_entries_response)
      (custom_paged_search (queries := sample_queries) sample_client
         (Some (JInt 1)) (Some (JInt 2)) {[ "type" := JStr "ANIME" ]})
      = Returned out ∧
    out = [Media (JObj {[ "id" := JInt 1 ]}) true;
           Media (JObj {[ "id" := JInt 2 ]}) true] ∧
    length out = 2%nat ∧
    ∀ (i : nat) entry,
      [JObj {[ "id" := JInt 1 ]}; JObj {[ "id" := JInt 2 ]}] !! i = Some entry →
      out !! i = Some (Media entry true).
Proof.
  apply (custom_paged_search_wraps_each_entry (queries := sample_queries)
           (stub two_entries_response) sample_client
           (Some (JInt 1)) (Some (JInt 2)) {[ "type" := JStr "ANIME" ]}
           two_entries_response
           [JObj {[ "id" := JInt 1 ]}; JObj {[ "id" := JInt 2 ]}]).
  - by apply stub_responded.
  - reflexivity.
  - reflexivity.
  - cbn. lia.
Defined.

Lemma search_popularity_selects_dispatch_witness :
  (result (stub two_entries_response)
     (search_anime (queries := sample_queries) sample_client (JStr "x")
        (Some true) None)
     = Returned (Media (JObj {[ "id" := JInt 1 ]}) true) ∧
   result (stub two_entries_response)
     (search_manga (queries := sample_queries) sample_client (JStr "x")
        (Some true) None None)
     = Returned (Media (JObj {[ "id" := JInt 1 ]}) true)) ∧
  (result (stub single_media_response)
     (search_anime (queries := sample_queries) sample_client (JStr "x")
        None None)
     = Returned (Media single_media_response false) ∧
   result (stub single_media_response)
     (search_manga (queries := sample_queries) sample_client (JStr "x")
        (Some false) None None)
     = Returned (Media single_media_response false)).
Proof.
  pose proof (search_popularity_selects_dispatch (queries := sample_queries)
                (stub two_entries_response) sample_client (JStr "x")
                (Some true) None None two_entries_response eq_refl)
    as (Wpaged & _).
  destruct (Wpaged (JObj {[ "id" := JInt 1 ]}) [JObj {[ "id" := JInt 2 ]}]
              eq_refl eq_refl) as (Wa & Wm).
  pose proof (search_popularity_selects_dispatch (queries := sample_queries)
                (stub single_media_response) sample_client (JStr "x")
                None None None single_media_response eq_refl)
    as (_ & Wnone).
  pose proof (search_popularity_selects_dispatch (queries := sample_queries)
                (stub single_media_response) sample_client (JStr "x")
                (Some false) None None single_media_response eq_refl)
    as (_ & Wfalse).
  split; split.
  - apply Wa. by apply stub_responded.
  - apply Wm. by apply stub_responded.
  - apply (Wnone eq_refl). by apply stub_responded.
  - apply (Wfalse eq_refl). by apply stub_responded.
Defined.

Lemma empty_page_error_is_a_service_404_witness :
  ∃ exc,
    result (stub empty_page_response)
      (_paged_request (queries := sample_queries) sample_client None None ∅)
      = Raised exc ∧
    message exc = Some (JStr "Not Found.") ∧
    status exc = Some (JInt 404) ∧
    caught_by KadalError_cls exc = true ∧
    result (stub (JObj {[ "errors" := JArr [error_entry "Not Found." 404] ]}))
      (_paged_request (queries := sample_queries) sample_client None None ∅)
      = Raised exc.
Proof.
  destruct (empty_page_error_is_a_service_404 (queries := sample_queries)
              (stub empty_page_response) sample_client None None ∅
              empty_page_response)
    as (exc & Hres & Hmsg & Hst & _ & _ & Hcaught & Hsame).
  - by apply stub_responded.
  - reflexivity.
  - reflexivity.
  - exists exc. do 4 (split; [assumption|]).
    apply (Hsame (stub (JObj {[ "errors" := JArr [error_entry "Not Found." 404] ]}))
             {[ "errors" := JArr [error_entry "Not Found." 404] ]} []).
    + by apply stub_responded.
    + reflexivity.
Defined.

(** ** Outgoing variables *)

Section Variables.
Context {queries : query_module} (net : network) (self : Client).

Lemma search_body_outgoing variables popularity :
  (∀ k, k ∈ ["self"; "query"; "page"; "perPage"] → variables !! k = None) →
  outgoing_variables net (search_body self variables popularity) =
    [if popularity
     then <["page" := JInt 1]> (<["perPage" := JInt 50]> variables)
     else variables].
Proof.
  intros Hfree. unfold outgoing_variables.
  by rewrite search_body_sent.
Qed.

(** C6. Every call of [search_anime] or [search_manga] sends one request;
    with [allow_adult] false or left out its variables hold
    [isAdult: False], and with [allow_adult=True] they hold no [isAdult]
    key at all. *)
Theorem isAdult_injected_unless_allowed
    query popularity include_novels allow_adult :
  (∃ variables,
     outgoing_variables net (search_anime self query popularity allow_adult)
       = [variables] ∧
     variables !! "isAdult"
       = if arg false allow_adult then None else Some (JBool false)) ∧
  (∃ variables,
     outgoing_variables net
       (search_manga self query popularity include_novels allow_adult)
       = [variables] ∧
     variables !! "isAdult"
       = if arg false allow_adult then None else Some (JBool false)).
Proof.
  rewrite search_anime_body, search_manga_body.
  rewrite !search_body_outgoing
    by (apply anime_variables_free || apply manga_variables_free).
  split; (eexists; split; [reflexivity|]);
    unfold anime_variables, manga_variables;
    destruct (arg false popularity), (arg false allow_adult); cbn [negb];
    by simplify_map_eq.
Qed.

(** C7. Every call of [search_manga] sends one request; with
    [include_novels] false or left out its variables hold
    [exclude: "NOVEL"], and with [include_novels=True] they hold [exclude]
    with the value [None] (null). *)
Theorem exclude_NOVEL_unless_included
    query popularity include_novels allow_adult :
  ∃ variables,
    outgoing_variables net
      (search_manga self query popularity include_novels allow_adult)
      = [variables] ∧
    variables !! "exclude"
      = Some (if arg false include_novels then JNull else JStr "NOVEL").
Proof.
  rewrite search_manga_body.
  rewrite search_body_outgoing by apply manga_variables_free.
  eexists; split; [reflexivity|]. unfold manga_variables.
  destruct (arg false popularity), (arg false allow_adult),
    (arg false include_novels); cbn [negb]; by simplify_map_eq.
Qed.
End Variables.

(** ** Construction *)

(** C8, as the code has it. Construction performs no exchange. It raises
    [ValueError] when [lib] is neither ['asyncio'] nor ['multio'], before
    anything else. For a supported mode it first settles the loop: in
    [asyncio] mode without a usable [loop] argument that is what
    [asyncio.get_event_loop()] gives, and what that call raises ends the
    construction. With the loop settled and no usable session supplied, it
    raises [ImportError], an exception of another class, when the library
    of the mode cannot be imported, and otherwise builds the default
    session of the mode. With a usable session supplied the library is not
    imported at all: construction succeeds with that session whether or
    not the library is there. *)
Theorem construction_outcomes env session lib loop :
  let mode := arg (PyStr "asyncio") lib in
  (∀ net, exchanges net (__init__ env session lib loop) = []) ∧
  (existsb (eq_str mode) ["asyncio"; "multio"] = false →
   ∃ msg, __init__ env session lib loop = Raise (ValueError msg)) ∧
  (existsb (eq_str mode) ["asyncio"; "multio"] = true →
   (∀ e, resolved_loop env mode loop = Raised e →
    __init__ env session lib loop = Raise e) ∧
   (∀ loop', resolved_loop env mode loop = Returned loop' →
    (usable session_truth session = None →
     required_library_importable env mode = false →
     ∃ msg, __init__ env session lib loop = Raise (ImportError msg) ∧
            class_of (ImportError msg) ≠ ValueError_cls ∧
            caught_by ValueError_cls (ImportError msg) = false) ∧
    (usable session_truth session = None →
     required_library_importable env mode = true →
     __init__ env session lib loop
       = Ret (mkClient mode (default_session mode loop'))) ∧
    (∀ s, usable session_truth session = Some s →
     __init__ env session lib loop = Ret (mkClient mode s)))).
Proof.
  intros mode.
  unfold __init__, _make_session, required_library_importable, default_session,
    resolved_loop, usable, or_else.
  fold mode. split; [|split].
  - intros net. apply exchanges_silent.
    destruct (negb _); [done|].
    destruct (eq_str mode "asyncio"), loop as [[]|], session as [[]|],
      (asyncio_get_event_loop env), (aiohttp_importable env),
      (asks_importable env); done.
  - intros ->. cbn. eauto.
  - intros ->. cbn [negb]. split.
    + intros e.
      destruct (eq_str mode "asyncio"); [|done].
      destruct loop as [[]|]; cbn; try done;
        destruct (asyncio_get_event_loop env); cbn; by intros [= ->].
    + intros loop' Hloop.
      assert ((if eq_str mode "asyncio"
               then l ← match loop with
                        | Some a => if loop_truth a then Ret a
                                    else lift (asyncio_get_event_loop env)
                        | None => lift (asyncio_get_event_loop env)
                        end; Ret (Some l)
               else Ret loop) = Ret loop') as ->.
      { destruct (eq_str mode "asyncio"); [|by injection Hloop as ->].
        destruct loop as [[]|]; cbn in *;
          try destruct (asyncio_get_event_loop env); cbn in *; congruence. }
      rewrite bind_Ret. split; [|split].
      * intros Hs Hlib.
        destruct session as [s|]; [destruct (session_truth s); [done|]|];
          cbn; destruct (eq_str mode "asyncio"); rewrite Hlib; cbn; eauto.
      * intros Hs Hlib.
        destruct session as [s|]; [destruct (session_truth s); [done|]|];
          cbn; by destruct (eq_str mode "asyncio"); rewrite Hlib.
      * intros s Hs. destruct session as [s'|]; [|done].
        destruct (session_truth s'); [|done]. by injection Hs as ->.
Qed.

(** The claim of C8 fails when a session is supplied: with [aiohttp]
    missing, [Client(session=s, lib='asyncio')] still succeeds. *)
Lemma supplied_session_needs_no_library :
  required_library_importable bare_environment (PyStr "asyncio") = false ∧
  __init__ bare_environment (Some (SuppliedSession 0)) (Some (PyStr "asyncio")) None
    = Ret (mkClient (PyStr "asyncio") (SuppliedSession 0)) ∧
  ∀ e, __init__ bare_environment (Some (SuppliedSession 0))
         (Some (PyStr "asyncio")) None ≠ Raise e.
Proof. split; [reflexivity|]. split; [reflexivity|]. intros e. discriminate. Qed.

Lemma construction_outcomes_witness :
  (∃ msg, __init__ bare_environment None (Some (PyStr "trio")) None
          = Raise (ValueError msg)) ∧
  __init__ loopless_environment (Some (SuppliedSession 0)) None None
    = Raise RuntimeError ∧
  (∃ msg, __init__ bare_environment None None None = Raise (ImportError msg) ∧
          class_of (ImportError msg) ≠ ValueError_cls ∧
          caught_by ValueError_cls (ImportError msg) = false) ∧
  __init__ (mkEnvironment false true (Raised RuntimeError)) (Some (FalsySession 3))
           (Some (PyStr "multio")) None
    = Ret (mkClient (PyStr "multio") asks_Session) ∧
  __init__ bare_environment (Some (SuppliedSession 0)) None None
    = Ret (mkClient (PyStr "asyncio") (SuppliedSession 0)).
Proof.
  split; [|split; [|split; [|split]]].
  - destruct (construction_outcomes bare_environment None
                (Some (PyStr "trio")) None) as (_ & W & _).
    exact (W eq_refl).
  - destruct (construction_outcomes loopless_environment
                (Some (SuppliedSession 0)) None None) as (_ & _ & W).
    destruct (W eq_refl) as (W' & _). exact (W' RuntimeError eq_refl).
  - destruct (construction_outcomes bare_environment None None None)
      as (_ & _ & W).
    destruct (W eq_refl) as (_ & W').
    destruct (W' (Some (LoopHandle 0)) eq_refl) as (W'' & _).
    exact (W'' eq_refl eq_refl).
  - destruct (construction_outcomes
                (mkEnvironment false true (Raised RuntimeError))
                (Some (FalsySession 3)) (Some (PyStr "multio")) None)
      as (_ & _ & W).
    destruct (W eq_refl) as (_ & W').
    destruct (W' None eq_refl) as (_ & W'' & _).
    exact (W'' eq_refl eq_refl).
  - destruct (construction_outcomes bare_environment
                (Some (SuppliedSession 0)) None None) as (_ & _ & W).
    destruct (W eq_refl) as (_ & W').
    destruct (W' (Some (LoopHandle 0)) eq_refl) as (_ & _ & W'').
    exact (W'' _ eq_refl).
Defined.

(** ** Remarks on the scope of the statements above *)

(** Errors come first: a response that carries both an error entry and an
    empty page is classified by its error entry. *)
Example errors_take_precedence :
  result (stub (JObj {[ "errors" := JArr [error_entry "Too Many Requests." 429];
                        "data" := JObj {[ "Page" := JObj {[ "media" := JArr [] ]} ]} ]}))
    (_paged_request (queries := sample_queries) sample_client None None ∅)
  = Raised (KadalError (JStr "Too Many Requests.") (JInt 429)).
Proof. reflexivity. Qed.

(** A variable named [query] collides with the first parameter of
    [_request]: the call raises [TypeError] and no request is sent. *)
Example query_variable_is_a_TypeError net :
  run net (custom_paged_search (queries := sample_queries) sample_client
             None None {[ "query" := JStr "naruto" ]})
  = ([], Raised TypeError).
Proof. reflexivity. Qed.

(** A status of [404.0] equals [404], and is carried as it came. *)
Example float_status_is_not_found :
  result (stub (JObj {[ "errors" := JArr [JObj {[
                          "message" := JStr "Not Found.";
                          "status" := JFloat (Finite (404 # 1)) ]}] ]}))
    (_request sample_client (@MEDIA_BY_ID sample_queries) {[ "id" := JInt 1 ]})
  = Raised (MediaNotFound (JStr "Not Found.") (JFloat (Finite (404 # 1)))).
Proof. reflexivity. Qed.

(** ** One dispatch per call *)

Lemma run_bind_assoc {A B C : Type} net (m : io A) (f : A → io B) (g : B → io C) :
  run net ((m ≫= f) ≫= g) = run net (m ≫= λ a, f a ≫= g).
Proof.
  rewrite !run_bind. destruct (run net m) as [t [a|e]]; [|done].
  rewrite run_bind. destruct (run net (f a)) as [t' [b|e]]; [|done].
  destruct (run net (g b)) as [t'' o]. by rewrite app_assoc.
Qed.

Lemma run_bind_Ret {A : Type} net (m : io A) : run net (m ≫= Ret) = run net m.
Proof.
  rewrite run_bind. destruct (run net m) as [t [a|e]]; [|done].
  cbn. by rewrite app_nil_r.
Qed.

Lemma run_bind_ext {A B : Type} net (m m' : io A) (f : A → io B) :
  run net m = run net m' → run net (m ≫= f) = run net (m' ≫= f).
Proof. intros Heq. by rewrite !run_bind, Heq. Qed.

Lemma exchanges_Post {A : Type} net s url body (k : Response → io A) :
  (∀ r, silent (k r)) →
  exchanges net (Post s url body k) = [mkExchange s url body (net s url body)].
Proof.
  intros Hk. unfold exchanges. cbn.
  destruct (net s url body) as [r|e]; [|done].
  specialize (Hk r). by destruct (k r).
Qed.

Section OneDispatch.
Context {queries : query_module} (self : Client).

Lemma dispatching_bind {A B : Type} (p : io A) (f : A → io B) :
  dispatching self p → (∀ a, silent (f a)) → dispatching self (p ≫= f).
Proof.
  intros [->|(query & variables & tail & Htail & Hrun)] Hf; [by left|].
  right. exists query, variables, (λ d, tail d ≫= f). split; [solve_silent|].
  intros net. rewrite <- run_bind_assoc. by apply run_bind_ext.
Qed.

Lemma dispatching_request query variables :
  dispatching self (_request self query variables).
Proof.
  right. exists query, variables, Ret. split; [done|].
  intros net. by rewrite run_bind_Ret.
Qed.

Lemma dispatching_paged_request page perPage variables :
  dispatching self (_paged_request self page perPage variables).
Proof.
  unfold _paged_request, star_kwargs. destruct (existsb _ _); [by left|].
  rewrite bind_Ret. apply dispatching_bind; [apply dispatching_request|].
  solve_silent.
Qed.

Lemma dispatching_perform c : dispatching self (perform self c).
Proof.
  destruct c; cbn [perform];
    (apply dispatching_bind; [|solve_silent]).
  - apply dispatching_bind; [apply dispatching_request|solve_silent].
  - apply dispatching_bind; [apply dispatching_request|solve_silent].
  - apply dispatching_bind; [apply dispatching_request|solve_silent].
  - unfold custom_paged_search, star_kwargs. destruct (existsb _ _); [by left|].
    rewrite bind_Ret.
    apply dispatching_bind; [apply dispatching_paged_request|solve_silent].
  - rewrite search_anime_body. unfold search_body.
    apply dispatching_bind; [|solve_silent]. destruct (arg false popularity).
    + apply dispatching_bind; [apply dispatching_paged_request|solve_silent].
    + apply dispatching_request.
  - rewrite search_manga_body. unfold search_body.
    apply dispatching_bind; [|solve_silent]. destruct (arg false popularity).
    + apply dispatching_bind; [apply dispatching_paged_request|solve_silent].
    + apply dispatching_request.
  - apply dispatching_bind; [apply dispatching_request|solve_silent].
Qed.

Lemma request_exchanges net query variables :
  exchanges net (_request self query variables) =
    if existsb (λ k, bool_decide (is_Some (variables !! k))) ["self"; "query"]
    then []
    else [mkExchange (session self) URL (request_body query variables)
            (net (session self) URL (request_body query variables))].
Proof.
  unfold _request, star_kwargs. destruct (existsb _ _); [done|].
  rewrite bind_Ret. cbn. apply exchanges_Post. solve_silent.
Qed.

(** What a dispatching computation exchanges. *)
Lemma dispatching_exchanges {A : Type} net (p : io A) :
  dispatching self p →
  exchanges net p = [] ∨
  ∃ query variables,
    exchanges net p =
      [mkExchange (session self) URL (request_body query variables)
         (net (session self) URL (request_body query variables))].
Proof.
  intros [->|(query & variables & tail & Htail & Hrun)]; [by left|].
  assert (exchanges net p = exchanges net (_request self query variables))
    as ->.
  { unfold exchanges at 1. rewrite Hrun.
    by apply (exchanges_bind_silent net (_request self query variables) tail). }
  rewrite request_exchanges. destruct (existsb _ _); eauto.
Qed.

(** An exception of [post] ends whatever computation meets it. *)
Lemma raised_reply_ends {A : Type} net (p : io A) x e :
  x ∈ exchanges net p → ex_reply x = Raised e → result net p = Raised e.
Proof.
  unfold exchanges, result.
  induction p as [a|e'|s url body k IH]; cbn; [set_solver..|].
  destruct (net s url body) as [r|e'] eqn:Hnet.
  - specialize (IH r). destruct (run net (k r)) as [t o]. cbn in *.
    intros [->|Hin]%elem_of_cons Hreply; [done|]. by apply IH.
  - cbn. intros ->%list_elem_of_singleton. cbn. by intros [= ->].
Qed.
End OneDispatch.

Section Propagation.
Context {queries : query_module} (net : network) (self : Client).

Lemma request_decode_raises query variables r e :
  received net (_request self query variables) = [r] →
  json_method r = Raised e →
  result net (_request self query variables) = Raised e.
Proof.
  intros Hrecv Hjson. unfold _request, star_kwargs in *.
  destruct (existsb _ _); [done|]. cbn in Hrecv |- *.
  apply received_Post in Hrecv as (_ & -> & _); [|solve_silent].
  rewrite Hjson. by destruct (eq_str _ _).
Qed.

Lemma dispatching_received {A : Type} (p : io A) r :
  dispatching self p →
  received net p = [r] →
  ∃ query variables (tail : json → io A),
    received net (_request self query variables) = [r] ∧
    result net p = match result net (_request self query variables) with
                   | Returned d => result net (tail d)
                   | Raised e => Raised e
                   end.
Proof.
  intros [->|(query & variables & tail & Htail & Hrun)] Hrecv; [done|].
  exists query, variables, tail. split.
  - rewrite <- Hrecv. unfold received, exchanges. rewrite Hrun.
    symmetry. by apply (received_bind_silent net _ tail).
  - unfold result at 1. rewrite Hrun. apply (result_bind net _ tail).
Qed.

(** Every public method performs at most one exchange per call: a [post] on
    the client's own session, to [URL], of a body with the two members
    [query] and [variables]. *)
Theorem one_post_per_call c :
  exchanges net (perform self c) = [] ∨
  ∃ query variables,
    exchanges net (perform self c) =
      [mkExchange (session self) URL (request_body query variables)
         (net (session self) URL (request_body query variables))].
Proof. apply dispatching_exchanges, dispatching_perform. Qed.

(** The client catches nothing of what the session raises: when [post]
    raises [e] for the request of a call, the call raises that same [e],
    and no response is received. *)
Theorem post_failure_propagates c e :
  (∀ body, net (session self) URL body = Raised e) →
  exchanges net (perform self c) ≠ [] →
  result net (perform self c) = Raised e ∧ received net (perform self c) = [].
Proof.
  intros Hdown Hsent.
  destruct (dispatching_exchanges self net _ (dispatching_perform self c))
    as [Hnone|(query & variables & Hone)]; [done|].
  rewrite Hdown in Hone. split.
  - eapply raised_reply_ends; [rewrite Hone; apply list_elem_of_here|done].
  - unfold received. by rewrite Hone.
Qed.

(** Nor does it catch what decoding raises: when [json()] of the response
    raises [e], the call raises that same [e]. *)
Theorem decode_failure_propagates c r e :
  received net (perform self c) = [r] →
  json_method r = Raised e →
  result net (perform self c) = Raised e.
Proof.
  intros Hrecv Hjson.
  destruct (dispatching_received _ r (dispatching_perform self c) Hrecv)
    as (query & variables & tail & Hreq & ->).
  by rewrite (request_decode_raises _ _ _ _ Hreq Hjson).
Qed.
End Propagation.

Lemma post_failure_propagates_witness :
  result (unreachable (SessionError "ClientConnectorError"))
    (perform (queries := sample_queries) sample_client
       (Search_user (JStr "someone")))
    = Raised (SessionError "ClientConnectorError") ∧
  received (unreachable (SessionError "ClientConnectorError"))
    (perform (queries := sample_queries) sample_client
       (Search_user (JStr "someone"))) = [].
Proof.
  apply (post_failure_propagates (queries := sample_queries)
           (unreachable (SessionError "ClientConnectorError")) sample_client
           (Search_user (JStr "someone")) (SessionError "ClientConnectorError")).
  - reflexivity.
  - discriminate.
Defined.

Lemma decode_failure_propagates_witness :
  result (undecodable (SessionError "ContentTypeError"))
    (perform (queries := sample_queries) sample_client
       (Search_anime (JStr "x") (Some true) None))
    = Raised (SessionError "ContentTypeError").
Proof.
  apply (decode_failure_propagates (queries := sample_queries)
           (undecodable (SessionError "ContentTypeError")) sample_client
           (Search_anime (JStr "x") (Some true) None)
           (mkResponse (Raised (SessionError "ContentTypeError")))
           (SessionError "ContentTypeError")); reflexivity.
Defined.

(** ** What a dispatch returns *)

Lemma handle_error_is_Raise error : ∃ e, handle_error error = Raise e.
Proof.
  unfold handle_error. destruct error as [| | | | | |m]; cbn; eauto.
  destruct (m !! "message") as [msg|]; cbn; eauto.
  destruct (m !! "status") as [st|]; cbn; eauto.
  destruct (eq_int st 404); eauto.
Qed.

(** [handle_error] never returns: on every value it raises, and what it
    raises is a [MediaNotFound], a [KadalError], the [KeyError] of a missing
    member, or the [TypeError] of an entry that is no object. *)
Theorem handle_error_always_raises error :
  ∃ e, handle_error error = Raise e ∧
       class_of e ∈ [MediaNotFound_cls; KadalError_cls; KeyError_cls;
                     TypeError_cls].
Proof.
  unfold handle_error. destruct error as [| | | | | |m]; cbn;
    try (eexists; split; [reflexivity|set_solver]).
  destruct (m !! "message") as [msg|]; cbn;
    [|eexists; split; [reflexivity|set_solver]].
  destruct (m !! "status") as [st|]; cbn;
    [|eexists; split; [reflexivity|set_solver]].
  destruct (eq_int st 404); eexists; (split; [reflexivity|set_solver]).
Qed.

Section Returns.
Context {queries : query_module} (net : network) (self : Client).

Lemma request_returns_inv query variables data :
  result net (_request self query variables) = Returned data →
  responded net (_request self query variables) data ∧ succeeded data = true.
Proof.
  unfold responded, _request, star_kwargs. destruct (existsb _ _); [done|].
  rewrite bind_Ret. cbn. unfold result, received, exchanges. cbn.
  destruct (net _ _ _) as [r|e]; [|done].
  assert (∀ d, json_method r = Returned d →
            (if eq_str (_lib self) "asyncio"
             then lift (json_method r) else lift (json_method r)) = Ret d)
    as Hdecode by (intros d ->; by destruct (eq_str _ _)).
  destruct (json_method r) as [d|e] eqn:Hjson;
    [rewrite (Hdecode d eq_refl)|by destruct (eq_str _ _)].
  destruct d as [| | | | | |m]; try done. cbn.
  destruct (truthy (default JNull (m !! "errors"))) eqn:Herr; cbn.
  - destruct (m !! "errors") as [errs|]; [|done]. cbn.
    destruct (getitem0 errs) as [first| |] eqn:Hfirst; cbn; try done.
    + destruct (handle_error_is_Raise first) as (e & ->). done.
    + by pose proof (silent_getitem0 errs) as Hs; rewrite Hfirst in Hs.
  - intros [= <-]. split; [by exists r|]. cbn. by rewrite Herr.
Qed.

(** A dispatch returns exactly the error-free responses, unchanged: it
    returns [data] if and only if it received one response, decoding to
    [data], whose [errors] member is absent, null or empty. In particular
    nothing it returns carries errors. *)
Theorem request_returns_iff query variables data :
  result net (_request self query variables) = Returned data ↔
  responded net (_request self query variables) data ∧ succeeded data = true.
Proof.
  split; [apply request_returns_inv|].
  intros (Hresp & Hok). by apply request_returns.
Qed.
End Returns.

(** ** What a paged dispatch returns *)

Lemma getitem_cases v key :
  (∃ x, field key v = Some x ∧ getitem v key = Ret x) ∨
  (field key v = None ∧
   getitem v key = Raise (match v with
                          | JObj _ => KeyError (JStr key)
                          | _ => TypeError
                          end)).
Proof.
  destruct v as [| | | | | |m]; cbn; eauto.
  destruct (m !! key); eauto.
Qed.

Section PagedReturns.
Context {queries : query_module} (net : network) (self : Client).

Lemma paged_request_returns_inv page perPage variables lst :
  result net (_paged_request self page perPage variables) = Returned lst →
  ∃ data,
    responded net (_paged_request self page perPage variables) data ∧
    succeeded data = true ∧
    at_path ["data"; "Page"; "media"] data = Some lst ∧
    truthy lst = true.
Proof.
  unfold responded, _paged_request, star_kwargs.
  destruct (existsb _ _); [done|]. rewrite bind_Ret, result_bind.
  rewrite received_bind_silent by solve_silent.
  destruct (result net (_request _ _ _)) as [data|e] eqn:Hreq; [|done].
  apply request_returns_inv in Hreq as (Hresp & Hok).
  intros Htail. exists data. split; [done|]. split; [done|]. revert Htail.
  cbn [at_path].
  destruct (getitem_cases data "data") as [(d & -> & ->)|(_ & ->)]; [|done].
  rewrite bind_Ret. cbn [mbind option_bind].
  destruct (getitem_cases d "Page") as [(p & -> & ->)|(_ & ->)]; [|done].
  rewrite bind_Ret. cbn [mbind option_bind].
  destruct (getitem_cases p "media") as [(l & -> & ->)|(_ & ->)]; [|done].
  rewrite bind_Ret. cbn [mbind option_bind].
  destruct (truthy l) eqn:Hl; cbn; [|done]. by intros [= ->].
Qed.

(** A paged dispatch returns [lst] if and only if it received an error-free
    response whose [data.Page.media] is [lst] and [lst] is truthy: the
    entries come back as they are, and an empty list is never returned. *)
Theorem paged_request_returns_iff page perPage variables lst :
  result net (_paged_request self page perPage variables) = Returned lst ↔
  ∃ data,
    responded net (_paged_request self page perPage variables) data ∧
    succeeded data = true ∧
    at_path ["data"; "Page"; "media"] data = Some lst ∧
    truthy lst = true.
Proof.
  split; [apply paged_request_returns_inv|].
  intros (data & Hresp & Hok & Hpath & Hl).
  by rewrite (paged_request_result _ _ _ _ _ _ _ Hresp Hok Hpath), Hl.
Qed.

(** [custom_paged_search] never returns an empty list: whatever it
    returns has at least one [Media], and each was built with
    [page=True]. *)
Theorem custom_paged_search_never_empty page perPage variables out :
  result net (custom_paged_search self page perPage variables) = Returned out →
  (1 ≤ length out)%nat ∧ ∀ m, m ∈ out → ∃ entry, m = Media entry true.
Proof.
  unfold custom_paged_search, star_kwargs.
  destruct (existsb _ _); [done|]. rewrite bind_Ret, result_bind.
  destruct (result net (_paged_request _ _ _ _)) as [lst|e] eqn:Hpaged; [|done].
  apply paged_request_returns_inv in Hpaged as (_ & _ & _ & _ & Hl).
  assert (∀ entries : list json, entries ≠ [] →
            (1 ≤ length (map (λ x, Media x true) entries))%nat ∧
            ∀ m, m ∈ map (λ x, Media x true) entries →
                 ∃ entry, m = Media entry true) as Hwrap.
  { intros entries Hne. split; [destruct entries; [done|cbn; lia]|].
    intros m (x & <- & _)%list_elem_of_In%in_map_iff. eauto. }
  destruct lst as [| | | |s|l|m]; try done; cbn [iter]; rewrite bind_Ret;
    intros [= <-]; apply Hwrap.
  - by destruct s.
  - by destruct l.
  - cbn in Hl. apply negb_true_iff, bool_decide_eq_false in Hl.
    intros Hnil. apply Hl. apply (f_equal length) in Hnil.
    by rewrite length_fmap, length_map_to_list in Hnil.
Qed.

(** A response without the members the paged path reads fails on the first
    one missing: [KeyError] for an absent [data], [Page] or [media], and
    [TypeError] when [data] or [data.Page] is no object, as for
    [{"data": null}]. *)
Theorem paged_response_missing_member page perPage variables data :
  responded net (_paged_request self page perPage variables) data →
  succeeded data = true →
  (field "data" data = None →
   result net (_paged_request self page perPage variables)
     = Raised (KeyError (JStr "data"))) ∧
  (∀ d, field "data" data = Some d → field "Page" d = None →
   result net (_paged_request self page perPage variables)
     = Raised (match d with
               | JObj _ => KeyError (JStr "Page")
               | _ => TypeError
               end)) ∧
  (∀ d p, field "data" data = Some d → field "Page" d = Some p →
   field "media" p = None →
   result net (_paged_request self page perPage variables)
     = Raised (match p with
               | JObj _ => KeyError (JStr "media")
               | _ => TypeError
               end)).
Proof.
  intros (r & Hrecv & Hjson) Hok.
  unfold _paged_request, star_kwargs in *.
  destruct (existsb _ _); [done|]. rewrite bind_Ret in Hrecv |- *.
  rewrite received_bind_silent in Hrecv by solve_silent.
  rewrite result_bind, (request_returns net self _ _ data)
    by (done || by exists r).
  assert (∃ m, data = JObj m) as (m & ->) by (destruct data; by eauto).
  split; [|split].
  - intros Hd. cbn in Hd |- *. by rewrite Hd.
  - intros d Hd Hp. rewrite (getitem_field _ _ _ Hd), bind_Ret.
    destruct (getitem_cases d "Page") as [(p & Hp' & _)|(_ & ->)]; [congruence|].
    done.
  - intros d p Hd Hp Hm. rewrite (getitem_field _ _ _ Hd), bind_Ret.
    rewrite (getitem_field _ _ _ Hp), bind_Ret.
    destruct (getitem_cases p "media") as [(l & Hl & _)|(_ & ->)]; [congruence|].
    done.
Qed.
End PagedReturns.

(** ** What is sent *)

Section Sent.
Context {queries : query_module} (net : network) (self : Client).

Lemma wrapped_request_sent {A : Type} query variables (tail : json → io A) :
  (∀ k, k ∈ ["self"; "query"] → variables !! k = None) →
  (∀ d, silent (tail d)) →
  sent net (_request self query variables ≫= tail)
    = [request_body query variables].
Proof.
  intros Hfree Htail. rewrite sent_bind_silent by done.
  by apply request_sent, star_kwargs_free.
Qed.

(** The requests of the single-item methods: [get_anime] and [get_manga]
    send the by-id media query with the id and the fixed type ["ANIME"] or
    ["MANGA"], [get_user] the by-id user query with the id, [search_user]
    the user search query with the search text; nothing else is passed. *)
Theorem single_item_requests id query :
  sent net (get_anime self id)
    = [request_body MEDIA_BY_ID {[ "id" := id; "type" := JStr "ANIME" ]}] ∧
  sent net (get_manga self id)
    = [request_body MEDIA_BY_ID {[ "id" := id; "type" := JStr "MANGA" ]}] ∧
  sent net (get_user self id)
    = [request_body USER_BY_ID {[ "id" := id ]}] ∧
  sent net (search_user self query)
    = [request_body USER_SEARCH {[ "search" := query ]}].
Proof.
  unfold get_anime, get_manga, get_user, search_user.
  repeat split; (apply wrapped_request_sent; [|solve_silent]);
    intros k Hk; set_unfold in Hk; destruct_or!; by simplify_map_eq.
Qed.

(** The variables of a search: the search text under [search], the fixed
    type under [type], [exclude] only for manga, and beyond these at most
    [isAdult] and, on the paged path, [page] and [perPage] with the
    defaults 1 and 50. *)
Theorem search_requests query popularity include_novels allow_adult :
  (∃ out,
     outgoing_variables net (search_anime self query popularity allow_adult)
       = [out] ∧
     out !! "search" = Some query ∧
     out !! "type" = Some (JStr "ANIME") ∧
     out !! "exclude" = None ∧
     out !! "page" = (if arg false popularity then Some (JInt 1) else None) ∧
     out !! "perPage" = (if arg false popularity then Some (JInt 50) else None) ∧
     dom out ⊆ {[ "search"; "type"; "isAdult"; "page"; "perPage" ]}) ∧
  (∃ out,
     outgoing_variables net
       (search_manga self query popularity include_novels allow_adult) = [out] ∧
     out !! "search" = Some query ∧
     out !! "type" = Some (JStr "MANGA") ∧
     out !! "page" = (if arg false popularity then Some (JInt 1) else None) ∧
     out !! "perPage" = (if arg false popularity then Some (JInt 50) else None) ∧
     dom out ⊆ {[ "search"; "type"; "exclude"; "isAdult"; "page"; "perPage" ]}).
Proof.
  rewrite search_anime_body, search_manga_body.
  unfold outgoing_variables.
  rewrite !search_body_sent
    by (apply anime_variables_free || apply manga_variables_free).
  split; (eexists; split; [reflexivity|]);
    unfold anime_variables, manga_variables;
    destruct (arg false popularity), (arg false allow_adult); cbn [negb];
    repeat split; try by simplify_map_eq.
  all: rewrite ?dom_insert_L, ?dom_singleton_L; set_solver.
Qed.

(** [custom_paged_search] passes the caller's variables on as they are,
    next to [page] and [perPage] (1 and 50 when left out), with the paged
    query. *)
Theorem custom_paged_search_passes_variables page perPage variables :
  (∀ k, k ∈ ["self"; "query"; "page"; "perPage"] → variables !! k = None) →
  queries_sent net (custom_paged_search self page perPage variables)
    = [JStr MEDIA_PAGED] ∧
  ∃ out,
    outgoing_variables net (custom_paged_search self page perPage variables)
      = [out] ∧
    out !! "page" = Some (arg (JInt 1) page) ∧
    out !! "perPage" = Some (arg (JInt 50) perPage) ∧
    ∀ k, k ≠ "page" → k ≠ "perPage" → out !! k = variables !! k.
Proof.
  intros Hfree.
  assert (sent net (custom_paged_search self page perPage variables)
          = [request_body MEDIA_PAGED
               (<["page" := arg (JInt 1) page]>
                  (<["perPage" := arg (JInt 50) perPage]> variables))]) as Hsent.
  { unfold custom_paged_search, star_kwargs.
    rewrite star_kwargs_free, bind_Ret by (intros; apply Hfree; set_solver).
    rewrite sent_bind_silent by solve_silent.
    unfold _paged_request, star_kwargs.
    rewrite star_kwargs_free, bind_Ret by (intros; apply Hfree; set_solver).
    apply wrapped_request_sent; [|solve_silent].
    intros k Hk. rewrite !lookup_insert_ne by set_solver.
    apply Hfree. set_solver. }
  unfold queries_sent, outgoing_variables. rewrite Hsent.
  split; [reflexivity|]. eexists. split; [reflexivity|].
  split; [by simplify_map_eq|]. split; [by simplify_map_eq|].
  intros k ? ?. by rewrite !lookup_insert_ne.
Qed.

(** A variable named [query] collides with the first parameter of
    [_request]: [custom_paged_search] raises [TypeError] and sends nothing. *)
Theorem query_variable_collides page perPage variables :
  is_Some (variables !! "query") →
  run net (custom_paged_search self page perPage variables)
    = ([], Raised TypeError).
Proof.
  intros Hq. unfold custom_paged_search, star_kwargs.
  destruct (existsb _ _); [done|]. rewrite bind_Ret.
  unfold _paged_request, star_kwargs.
  destruct (existsb _ _); [done|]. rewrite bind_Ret.
  unfold _request, star_kwargs.
  assert (existsb
            (λ k, bool_decide
                    (is_Some ((<["page" := arg (JInt 1) (Some (arg (JInt 1) page))]>
                                 (<["perPage" := arg (JInt 50)
                                                   (Some (arg (JInt 50) perPage))]>
                                    variables)) !! k)))
            ["self"; "query"] = true) as ->; [|done].
  apply existsb_exists. exists "query". split; [cbn; auto|].
  apply bool_decide_eq_true. by rewrite !lookup_insert_ne.
Qed.
End Sent.

(** ** Malformed error members and unchecked data *)

Section Unchecked.
Context {queries : query_module} (net : network) (self : Client).

(** An [errors] member of another shape than the service's fails before any
    classification: a first entry that is no object, such as a bare
    message string, is a [TypeError], and a non-empty object in place of
    the array is [KeyError(0)]. *)
Theorem malformed_errors_member query variables m :
  responded net (_request self query variables) (JObj m) →
  (∀ first rest,
     m !! "errors" = Some (JArr (first :: rest)) →
     (∀ e, first ≠ JObj e) →
     result net (_request self query variables) = Raised TypeError) ∧
  (∀ e,
     m !! "errors" = Some (JObj e) →
     size e ≠ 0%nat →
     result net (_request self query variables) = Raised (KeyError (JInt 0))).
Proof.
  intros Hresp. split.
  - intros first rest Herr Hshape.
    rewrite (request_raises _ _ _ _ _ _ _ Hresp Herr).
    destruct first; try done. by destruct (Hshape m0).
  - intros e Herr Hsize. destruct Hresp as (r & Hrecv & Hjson).
    unfold _request, star_kwargs in *.
    destruct (existsb _ _); [done|]. cbn in Hrecv |- *.
    apply received_Post in Hrecv as (_ & -> & _); [|solve_silent].
    rewrite Hjson.
    destruct (eq_str _ _); cbn; rewrite Herr; cbn;
      by rewrite bool_decide_eq_false_2.
Qed.

(** The single-item methods do not look into [data]: on every error-free
    response, also one whose [data] is null or absent, [search_user],
    [get_user], [get_anime] and [get_manga] return the object built from
    the decoded response. *)
Theorem single_item_data_unchecked id query data :
  succeeded data = true →
  (responded net (search_user self query) data →
   result net (search_user self query) = Returned (User data)) ∧
  (responded net (get_user self id) data →
   result net (get_user self id) = Returned (User data)) ∧
  (responded net (get_anime self id) data →
   result net (get_anime self id) = Returned (Media data false)) ∧
  (responded net (get_manga self id) data →
   result net (get_manga self id) = Returned (Media data false)).
Proof.
  intros Hok. unfold search_user, get_user, get_anime, get_manga.
  split; [|split; [|split]]; intros Hresp.
  - by apply (wrap_request net self _ _ User).
  - by apply (wrap_request net self _ _ User).
  - by apply (wrap_request net self _ _ (λ whole, Media whole false)).
  - by apply (wrap_request net self _ _ (λ whole, Media whole false)).
Qed.
End Unchecked.

(** ** Construction, completed *)

(** [__init__] in the terms of the statements: the check of [lib], the
    loop, the session. *)
Lemma construction_steps env supplied lib loop :
  let mode := arg (PyStr "asyncio") lib in
  __init__ env supplied lib loop =
    if negb (existsb (eq_str mode) ["asyncio"; "multio"]) then
      Raise (ValueError
        ("lib must be of type `str` and be either `asyncio` or `multio`, not `"
         +:+ match mode with PyStr s => s | PyOther c => c end +:+ "`"))
    else
      match resolved_loop env mode loop with
      | Raised e => Raise e
      | Returned loop' =>
          match usable session_truth supplied with
          | Some s => Ret (mkClient mode s)
          | None => s ← _make_session env mode loop'; Ret (mkClient mode s)
          end
      end.
Proof.
  intros mode. unfold __init__, resolved_loop, usable, or_else. fold mode.
  destruct (negb _); [done|].
  destruct (eq_str mode "asyncio").
  - destruct loop as [[]|]; cbn;
      try destruct (asyncio_get_event_loop env); cbn;
      try destruct supplied as [[]|]; done.
  - cbn. by destruct supplied as [[]|].
Qed.

(** Construction ends in one of four ways and no other: a client whose
    mode is the supported [lib] given and whose session is the usable one
    supplied or else the default of the mode; [ValueError], for an
    unsupported [lib]; the exception of [asyncio.get_event_loop()], in
    [asyncio] mode without a usable loop; or [ImportError], which needs
    that no usable session was supplied and that the library of the mode
    is missing. A supplied session that is falsy is replaced like one left
    out. *)
Theorem construction_ends env supplied lib loop :
  let mode := arg (PyStr "asyncio") lib in
  (∃ c loop',
     __init__ env supplied lib loop = Ret c ∧
     _lib c = mode ∧
     existsb (eq_str mode) ["asyncio"; "multio"] = true ∧
     resolved_loop env mode loop = Returned loop' ∧
     session c = default (default_session mode loop')
                         (usable session_truth supplied)) ∨
  (∃ msg, __init__ env supplied lib loop = Raise (ValueError msg) ∧
          existsb (eq_str mode) ["asyncio"; "multio"] = false) ∨
  (∃ e, __init__ env supplied lib loop = Raise e ∧
        existsb (eq_str mode) ["asyncio"; "multio"] = true ∧
        eq_str mode "asyncio" = true ∧
        usable loop_truth loop = None ∧
        asyncio_get_event_loop env = Raised e) ∨
  (∃ msg loop',
     __init__ env supplied lib loop = Raise (ImportError msg) ∧
     existsb (eq_str mode) ["asyncio"; "multio"] = true ∧
     resolved_loop env mode loop = Returned loop' ∧
     usable session_truth supplied = None ∧
     required_library_importable env mode = false).
Proof.
  intros mode. rewrite construction_steps. fold mode.
  destruct (existsb (eq_str mode) _) eqn:Hmode; cbn [negb];
    [|right; left; eauto].
  destruct (resolved_loop env mode loop) as [loop'|e] eqn:Hloop.
  - destruct (usable session_truth supplied) as [s|] eqn:Hs;
      [left; eauto 10|].
    unfold _make_session, required_library_importable, default_session.
    destruct (eq_str mode "asyncio").
    + destruct (aiohttp_importable env); cbn;
        [left; eauto 10|do 3 right; eauto 10].
    + destruct (asks_importable env); cbn;
        [left; eauto 10|do 3 right; eauto 10].
  - right; right; left. exists e. split; [done|]. split; [done|].
    unfold resolved_loop in Hloop.
    destruct (eq_str mode "asyncio"); [|done]. split; [done|].
    destruct (usable loop_truth loop); [done|]. split; [done|].
    destruct (asyncio_get_event_loop env); congruence.
Qed.

(** A client built around a supplied, truthy session talks through that
    session only: whatever method is called next, each of its exchanges is
    a [post] on the supplied session, to [URL]. *)
Theorem supplied_session_is_used
    {queries : query_module} net env s lib loop c x :
  session_truth s = true →
  x ∈ exchanges net (self ← __init__ env (Some s) lib loop; perform self c) →
  ex_session x = s ∧ ex_url x = URL.
Proof.
  intros Hs. rewrite construction_steps. cbn [usable]. rewrite Hs.
  destruct (negb _); [cbn; set_solver|].
  destruct (resolved_loop _ _ _); [|cbn; set_solver].
  rewrite bind_Ret.
  set (self := mkClient _ s).
  destruct (dispatching_exchanges self net _ (dispatching_perform self c))
    as [->|(query & variables & ->)]; [set_solver|].
  by intros ->%list_elem_of_singleton.
Qed.

(** ** Concrete runs of the further properties *)

Lemma request_returns_iff_witness :
  result (stub single_media_response)
    (_request sample_client (@MEDIA_BY_ID sample_queries) {[ "id" := JInt 1 ]})
  = Returned single_media_response.
Proof.
  apply (request_returns_iff (stub single_media_response) sample_client
           (@MEDIA_BY_ID sample_queries) {[ "id" := JInt 1 ]}
           single_media_response).
  split; [by apply stub_responded|reflexivity].
Defined.

Lemma paged_request_returns_iff_witness :
  result (stub two_entries_response)
    (_paged_request (queries := sample_queries) sample_client None None ∅)
  = Returned (JArr [JObj {[ "id" := JInt 1 ]}; JObj {[ "id" := JInt 2 ]}]).
Proof.
  apply (paged_request_returns_iff (queries := sample_queries)
           (stub two_entries_response) sample_client None None ∅).
  exists two_entries_response.
  split; [by apply stub_responded|]. by repeat split.
Defined.

Lemma custom_paged_search_never_empty_witness :
  result (stub two_entries_response)
    (custom_paged_search (queries := sample_queries) sample_client None None ∅)
    = Returned [Media (JObj {[ "id" := JInt 1 ]}) true;
                Media (JObj {[ "id" := JInt 2 ]}) true] ∧
  (1 ≤ length [Media (JObj {[ "id" := JInt 1 ]}) true;
               Media (JObj {[ "id" := JInt 2 ]}) true])%nat ∧
  ∀ m, m ∈ [Media (JObj {[ "id" := JInt 1 ]}) true;
            Media (JObj {[ "id" := JInt 2 ]}) true] →
       ∃ entry, m = Media entry true.
Proof.
  split; [reflexivity|].
  apply (custom_paged_search_never_empty (queries := sample_queries)
           (stub two_entries_response) sample_client None None ∅).
  reflexivity.
Defined.

Lemma paged_response_missing_member_witness :
  result (stub null_data_response)
    (_paged_request (queries := sample_queries) sample_client None None ∅)
  = Raised TypeError.
Proof.
  destruct (paged_response_missing_member (queries := sample_queries)
              (stub null_data_response) sample_client None None ∅
              null_data_response) as (_ & W & _).
  - by apply stub_responded.
  - reflexivity.
  - exact (W JNull eq_refl eq_refl).
Defined.

Lemma custom_paged_search_passes_variables_witness :
  queries_sent (stub two_entries_response)
    (custom_paged_search (queries := sample_queries) sample_client
       (Some (JInt 3)) None {[ "sort" := JStr "SCORE_DESC" ]})
    = [JStr (@MEDIA_PAGED sample_queries)] ∧
  ∃ out,
    outgoing_variables (stub two_entries_response)
      (custom_paged_search (queries := sample_queries) sample_client
         (Some (JInt 3)) None {[ "sort" := JStr "SCORE_DESC" ]}) = [out] ∧
    out !! "page" = Some (JInt 3) ∧
    out !! "perPage" = Some (JInt 50) ∧
    ∀ k, k ≠ "page" → k ≠ "perPage" →
         out !! k = ({[ "sort" := JStr "SCORE_DESC" ]} : gmap string json) !! k.
Proof.
  apply (custom_paged_search_passes_variables (queries := sample_queries)
           (stub two_entries_response) sample_client
           (Some (JInt 3)) None {[ "sort" := JStr "SCORE_DESC" ]}).
  intros k Hk. set_unfold in Hk. destruct_or!; by subst.
Defined.

Lemma query_variable_collides_witness :
  run (stub two_entries_response)
    (custom_paged_search (queries := sample_queries) sample_client None None
       {[ "query" := JStr "naruto"; "type" := JStr "ANIME" ]})
  = ([], Raised TypeError).
Proof.
  apply (query_variable_collides (queries := sample_queries)).
  by eexists.
Defined.

Lemma malformed_errors_member_witness :
  result (stub bare_message_response)
    (_request sample_client (@MEDIA_BY_ID sample_queries) {[ "id" := JInt 1 ]})
  = Raised TypeError.
Proof.
  destruct (malformed_errors_member (stub bare_message_response) sample_client
              (@MEDIA_BY_ID sample_queries) {[ "id" := JInt 1 ]}
              {[ "errors" := JArr [JStr "Syntax error."] ]}) as (W & _).
  - by apply stub_responded.
  - by apply (W (JStr "Syntax error.") []).
Defined.

Lemma single_item_data_unchecked_witness :
  result (stub null_data_response)
    (search_user (queries := sample_queries) sample_client (JStr "nobody"))
  = Returned (User null_data_response).
Proof.
  destruct (single_item_data_unchecked (queries := sample_queries)
              (stub null_data_response) sample_client (JInt 1) (JStr "nobody")
              null_data_response eq_refl) as (W & _).
  apply W. by apply stub_responded.
Defined.

Lemma supplied_session_is_used_witness :
  let x := mkExchange (SuppliedSession 5) URL
             (request_body (@USER_BY_ID sample_queries) {[ "id" := JInt 7 ]})
             (Returned (mkResponse (Returned single_user_response))) in
  exchanges (stub single_user_response)
    (self ← __init__ bare_environment (Some (SuppliedSession 5)) None None;
     perform (queries := sample_queries) self (Get_user (JInt 7))) = [x] ∧
  ex_session x = SuppliedSession 5 ∧ ex_url x = URL.
Proof.
  cbv zeta. split; [reflexivity|].
  apply (supplied_session_is_used (queries := sample_queries)
           (stub single_user_response) bare_environment (SuppliedSession 5)
           None None (Get_user (JInt 7))).
  - reflexivity.
  - apply list_elem_of_here.
Defined.
